(** * node-chunks: services, response rendering and server app chunks

    A shallow embedding of [service.js], [renders-responses.js],
    [json-renderer.js] and [server-app-chunk.js], and the properties of
    their endpoint registration and request handling.

    The JavaScript is modelled as follows.
    - Dynamically typed data (configuration objects, endpoint tables,
      method maps, request data, errors) is a [value].
    - Calls that leave the library (the server's verb methods, [next], the
      response channel, processing methods, raw handlers) are recorded, in
      order, in the [calls] of a [world]; logger calls go to [logs].
    - A method is a function of its receiver; a closure is a descriptor of
      what it captured by value, and its body takes the current state of
      the objects it captured by reference. *)

From Stdlib Require Import String Ascii List ZArith Bool Arith Lia.
Import ListNotations.
Local Open Scope string_scope.
Set Warnings "-register-all".

(** ** JavaScript values *)

(** Function values the library meets: functions handed in by the
    application or the framework, known by an identity only, and
    [JSONRenderer.prototype._renderJSON]. *)
Inductive func : Type :=
| Extern (id : string)
| RenderJSON.

(** Object properties are kept in the order in which
    [Object.getOwnPropertyNames] lists them. *)
Inductive value : Type :=
| VUndef
| VNull
| VBool (b : bool)
| VNum (z : Z)
| VStr (s : string)
| VArr (items : list value)
| VObj (props : list (string * value))
| VFun (f : func).

(** ToBoolean, as used by [!x] and [x || y]. *)
Definition truthy (v : value) : bool :=
  match v with
  | VUndef | VNull => false
  | VBool b => b
  | VNum z => negb (Z.eqb z 0)
  | VStr s => negb (String.eqb s "")
  | VArr _ | VObj _ | VFun _ => true
  end.

(** [a || b] *)
Definition js_or (a b : value) : value := if truthy a then a else b.

Fixpoint lookup (k : string) (ps : list (string * value)) : value :=
  match ps with
  | [] => VUndef
  | (k', v) :: ps' => if String.eqb k k' then v else lookup k ps'
  end.

(** [o.k] on a value already known to be an object. *)
Definition prop (o : value) (k : string) : value :=
  match o with
  | VObj ps => lookup k ps
  | _ => VUndef
  end.

Definition getOwnPropertyNames (o : value) : list string :=
  match o with
  | VObj ps => map fst ps
  | _ => []
  end.

(** [String.prototype.toLowerCase], on the ASCII letters. *)
Definition lower_ascii (c : ascii) : ascii :=
  let n := nat_of_ascii c in
  if (65 <=? n)%nat && (n <=? 90)%nat then ascii_of_nat (n + 32) else c.

Fixpoint toLowerCase (s : string) : string :=
  match s with
  | EmptyString => EmptyString
  | String c r => String (lower_ascii c) (toLowerCase r)
  end.

(** ** The utility library [_] ([libs/corelib-web/utils.js]) *)

(** Modelled from the spec: [_.def] of the utility library, which is not
    part of the sources; "absent" values are [undefined] and [null] (the
    registration functions return [null] for a failed endpoint and their
    callers test the result with [_.def]). *)
Definition _def (v : value) : bool :=
  match v with
  | VUndef | VNull => false
  | _ => true
  end.

(** Modelled from the spec: [_.obj] of the utility library; a structured
    object, which a primitive or an array is not. *)
Definition _obj (v : value) : bool :=
  match v with
  | VObj _ => true
  | _ => false
  end.

(** Modelled from the spec: [_.array], [_.func], [_.string] and [_.number]
    of the utility library, the type tests of their names. *)
Definition _array (v : value) : bool :=
  match v with VArr _ => true | _ => false end.

Definition _func (v : value) : bool :=
  match v with VFun _ => true | _ => false end.

Definition _string (v : value) : bool :=
  match v with VStr _ => true | _ => false end.

Definition _number (v : value) : bool :=
  match v with VNum _ => true | _ => false end.

(** Modelled from the spec: [_.get(obj, name)] of the utility library; the
    property of that name, or [undefined] when the object or the property
    is absent. *)
Definition _get (o : value) (k : string) : value := prop o k.

(** Modelled from the spec: [_.empty] of the utility library, on a list of
    names. *)
Definition _empty {A : Type} (l : list A) : bool :=
  match l with [] => true | _ => false end.

(** Modelled from the spec: [_.hasMethod(obj, name)] of the utility
    library; the object exposes a function under that name. *)
Definition _hasMethod (o : value) (name : value) : bool :=
  match name with
  | VStr s => _func (_get o s)
  | _ => false
  end.

Fixpoint strip_leading (s : string) : string :=
  match s with
  | String "/"%char r => strip_leading r
  | _ => s
  end.

Fixpoint strip_trailing (s : string) : string :=
  match s with
  | EmptyString => EmptyString
  | String c r =>
      match strip_trailing r with
      | EmptyString => if Ascii.eqb c "/"%char then EmptyString else String c EmptyString
      | r' => String c r'
      end
  end.

Definition join2 (a b : string) : string :=
  strip_trailing a ++ "/" ++ strip_leading b.

Fixpoint join_strings (acc : option string) (parts : list value) : string :=
  match parts with
  | [] => match acc with Some a => a | None => "" end
  | VStr p :: rest =>
      join_strings (Some (match acc with Some a => join2 a p | None => p end)) rest
  | _ :: rest => join_strings acc rest
  end.

(** Modelled from the spec: [_.joinPaths] of the utility library; the
    parts joined into one path with a single separator at each joint
    (["/api/"] and ["/users/:id"] give ["/api/users/:id"]). *)
Definition _joinPaths (parts : list value) : value :=
  VStr (join_strings None parts).

Definition digit (c : ascii) : option nat :=
  let n := nat_of_ascii c in
  if (48 <=? n)%nat && (n <=? 57)%nat then Some (n - 48)%nat else None.

(** Modelled from the spec: [String.prototype.fmt] of the utility library;
    [{i}] stands for the i-th argument. *)
Fixpoint fmt (s : string) (args : list string) : string :=
  match s with
  | EmptyString => EmptyString
  | String c rest =>
      match c, rest with
      | "{"%char, String d (String "}"%char rest') =>
          match digit d with
          | Some i =>
              match nth_error args i with
              | Some a => a ++ fmt rest' args
              | None => String c (fmt rest args)
              end
          | None => String c (fmt rest args)
          end
      | _, _ => String c (fmt rest args)
      end
  end.

(** ** Effects *)

Inductive level : Type := Debug | Info | Warn | Error.

(** One logger call: its level and its message, as the source spells it
    (before formatting; the [me] prefix is left out). *)
Definition logentry : Type := (level * string)%type.

(** The request handlers the library builds.  Both are closures; the
    descriptor holds what they captured by value.
    - [ValidatedHandlerFunc] is made by
      [ServerAppChunk._llCreateValidatedHandlerFunc]; it also captures the
      chunk ([self]).
    - [EndpointHandlerFunc] is made by
      [RendersResponses._llCreateEndpointHandlerFunc]; it also captures
      [service] and the renderer ([self]). *)
Inductive handler : Type :=
| ValidatedHandlerFunc (endpointName : string) (handlerFunc : value)
| EndpointHandlerFunc (instanceName endpointName : string)
                      (endpointMethod endpointRenderMethod : value).

(** The completion callback the composite handler gives to the processing
    method, with the request it was made for. *)
Record readyCallback : Type := ReadyCallback {
  cb_endpointName : string;
  cb_endpointRenderMethod : value;
  cb_req : value;
  cb_res : value;
  cb_next : value
}.

(** Calls that leave the library. *)
Inductive event : Type :=
| EvRoute (server verb path : value) (h : handler)   (* server[verb](path, h) *)
| EvNext (next err : value)                          (* next(err) *)
| EvCall (f : value) (args : list value)             (* f(args...) *)
| EvProcess (f req : value) (cb : readyCallback)     (* f(req, cb) *)
| EvStatus (res code : value)                        (* res.status(code) *)
| EvSet (res headers : value)                        (* res.set(headers) *)
| EvJson (res data : value).                         (* res.json(data) *)

Record world : Type := World {
  calls : list event;
  logs : list logentry
}.

Definition empty_world : world := World [] [].

Inductive outcome (A : Type) : Type :=
| Ret (a : A)
| Throw (e : string).
Arguments Ret {A} a.
Arguments Throw {A} e.

(** A computation: it returns or throws, and extends the world. *)
Definition M (A : Type) : Type := world -> outcome A * world.

Definition ret {A} (a : A) : M A := fun w => (Ret a, w).

Definition bind {A B} (m : M A) (k : A -> M B) : M B :=
  fun w =>
    match m w with
    | (Ret a, w') => k a w'
    | (Throw e, w') => (Throw e, w')
    end.

Definition throw {A} (e : string) : M A := fun w => (Throw e, w).

Definition emit (e : event) : M unit :=
  fun w => (Ret tt, World (calls w ++ [e]) (logs w)).

Definition log (l : level) (msg : string) : M unit :=
  fun w => (Ret tt, World (calls w) (logs w ++ [(l, msg)])).

Declare Scope js_scope.
Delimit Scope js_scope with js.
Notation "x <- m ;; k" := (bind m (fun x => k))
  (at level 61, m at next level, right associativity) : js_scope.
Notation "m ;; k" := (bind m (fun _ => k))
  (at level 61, right associativity) : js_scope.
Local Open Scope js_scope.

(** A value with the log lines written while computing it: the effect of
    methods that only log. *)
Definition logged (A : Type) : Type := (A * list logentry)%type.

Definition quiet {A} (a : A) : logged A := (a, []).

Definition liftL {A} (m : logged A) : M A :=
  fun w => (Ret (fst m), World (calls w) (logs w ++ snd m)).

(** What a function of the application returns, and the channel the
    response channel's chainable methods return. *)
Record environment : Type := Environment {
  returns : value -> list value -> value;
  status_returns : value -> value -> value;
  set_returns : value -> value -> value
}.

(** ** NamedBase ([libs/corelib-web/base.js]) *)

Module NamedBase.

(** Modelled from the spec: [NamedBase] is not part of the sources; it
    "gives every object an identifying name and a validity flag", read by
    [getIName()] and [isValid()]. *)
Record t : Type := Make {
  _instanceName : string;
  _valid : bool
}.

Definition constructor (instanceName : string) : t :=
  {| _instanceName := instanceName; _valid := false |}.

Definition getIName (self : t) : string := _instanceName self.

Definition isValid (self : t) : bool := _valid self.

End NamedBase.

(** ** Service ([service.js]) *)

Module Service.

Record t : Type := Make {
  base : NamedBase.t;
  _endpointTable : value;
  _endpointMethodMap : value
}.

Definition getIName (self : t) : string := NamedBase.getIName (base self).

Definition isValid (self : t) : bool := NamedBase.isValid (base self).

Definition set_valid (b : bool) (self : t) : t :=
  {| base := NamedBase.Make (NamedBase._instanceName (base self)) b;
     _endpointTable := _endpointTable self;
     _endpointMethodMap := _endpointMethodMap self |}.

Definition set_endpointMethodMap (m : value) (self : t) : t :=
  {| base := base self;
     _endpointTable := _endpointTable self;
     _endpointMethodMap := m |}.

(** [null], or the array of names. *)
Definition getEndpointNames (self : t) : M (option (list string)) :=
  if negb (_obj (_endpointTable self)) then
    log Error "No endpoint definitions available, unable to get any service endpoint names." ;;
    ret None
  else
    ret (Some (getOwnPropertyNames (_endpointTable self))).

Definition getEndpointDefFor (self : t) (endpointName : string) : value :=
  _get (_endpointTable self) endpointName.

Definition getMethodForEndpoint (self : t) (endpointName : string) : value :=
  _get (_endpointMethodMap self) endpointName.

(** The mapping step is overridable: [None] is the base implementation,
    [Some f] a subclass that computes the map from the instance. *)
Definition _mapEndpointsToMethods (override : option (t -> value)) (self : t)
  : M value :=
  match override with
  | Some f => ret (f self)
  | None =>
      log Error "Method not implemented, don't know to what methods to map to defined endpoints" ;;
      ret VNull
  end.

(** The [for (var idx in endpointNames)] loop of [_endpointMethodMapValid]. *)
Fixpoint checkNames (self : t) (endpointNames : list string) (valid : bool)
  : M bool :=
  match endpointNames with
  | [] => ret valid
  | name :: rest =>
      if negb (_func (_get (_endpointMethodMap self) name)) then
        log Error "Endpoint {0} has no mapping to an instance method, thus mapping not valid" ;;
        checkNames self rest false
      else checkNames self rest valid
  end.

Definition _endpointMethodMapValid (self : t) : M bool :=
  endpointNames <- getEndpointNames self ;;
  match endpointNames with
  | None =>
      log Error "Unable to get endpoint names, thus mapping not valid" ;;
      ret false
  | Some names => checkNames self names true
  end.

Definition constructor (serviceName : string) (config : value)
    (override : option (t -> value)) : M t :=
  let this := {| base := NamedBase.constructor serviceName;
                 _endpointTable := VNull;
                 _endpointMethodMap := VNull |} in
  let this := set_valid true this in
  let this := {| base := base this;
                 _endpointTable := _get config "endpointTable";
                 _endpointMethodMap := _endpointMethodMap this |} in
  map <- _mapEndpointsToMethods override this ;;
  let this := set_endpointMethodMap map this in
  ok <- _endpointMethodMapValid this ;;
  if negb ok then
    log Error "Mapping from service endpoint definitions to instance methods is not valid, {0} service will not function properly." ;;
    ret (set_valid false this)
  else ret this.

End Service.

(** ** Calling function values *)

Section Calls.

Variable env : environment.

(** The body of [JSONRenderer._renderJSON]; [this_responseHeaders] is what
    [this._responseHeaders] reads. *)
Definition renderJSON_body (this_responseHeaders : value)
    (req res next data err status : value) : M value :=
  if _def err then
    emit (EvNext next err) ;;
    ret VUndef
  else
    res <- (if _number status then
              emit (EvStatus res status) ;;
              ret (status_returns env res status)
            else ret res) ;;
    res <- (if _obj this_responseHeaders then
              emit (EvSet res this_responseHeaders) ;;
              ret (set_returns env res this_responseHeaders)
            else ret res) ;;
    let data := if negb (_obj data) then VObj [("data", data)] else data in
    emit (EvJson res data) ;;
    ret VUndef.

Definition arg (i : nat) (args : list value) : value := nth i args VUndef.

(** [f(args...)], a plain call.  Parameters without an argument are
    [undefined]; [_renderJSON] called this way has no receiver, so its
    [this._responseHeaders] reads [undefined]. *)
Definition call (f : value) (args : list value) : M value :=
  match f with
  | VFun (Extern _) =>
      emit (EvCall f args) ;;
      ret (returns env f args)
  | VFun RenderJSON =>
      renderJSON_body VUndef (arg 0 args) (arg 1 args) (arg 2 args)
                      (arg 3 args) (arg 4 args) (arg 5 args)
  | _ => throw "TypeError: not a function"
  end.

(** [f(req, cb)] for a processing method [f] and a completion callback. *)
Definition callProcessing (f req : value) (cb : readyCallback) : M value :=
  match f with
  | VFun (Extern _) =>
      emit (EvProcess f req cb) ;;
      ret (returns env f [req])
  | _ => throw "TypeError"
  end.

End Calls.

(** [o.name(...)] where the method may be missing. *)
Definition callMethod {A : Type} (name : string) (m : option A) : M A :=
  match m with
  | Some a => ret a
  | None => throw ("TypeError: " ++ name ++ " is not a function")
  end.

(** ** The service argument of [renderResponsesFor] *)

Module IService.

(** What [renderResponsesFor] and its handlers see of [service]: each
    method is [None] when the object does not expose it, and otherwise
    what calling it gives.  A [Service] instance exposes all five. *)
Record t : Type := Make {
  getIName : option string;
  getEndpointNames : option (option (list string));
  getEndpointDefFor : option (string -> value);
  getMethodForEndpoint : option (string -> value);
  isValid : option bool
}.

Definition isSome {A : Type} (o : option A) : bool :=
  match o with Some _ => true | None => false end.

Definition exposes (service : t) (method : string) : bool :=
  if String.eqb method "getIName" then isSome (getIName service)
  else if String.eqb method "getEndpointNames" then isSome (getEndpointNames service)
  else if String.eqb method "getEndpointDefFor" then isSome (getEndpointDefFor service)
  else if String.eqb method "getMethodForEndpoint" then isSome (getMethodForEndpoint service)
  else if String.eqb method "isValid" then isSome (isValid service)
  else false.

End IService.

(** Modelled from the spec: [_.interfaceAdheres(obj, {methods: [...]})] of
    the utility library, the "capability check": the object exposes every
    listed method. *)
Definition _interfaceAdheres (service : IService.t) (methods : list string) : bool :=
  forallb (IService.exposes service) methods.

(** ** RendersResponses ([renders-responses.js]) *)

Module RendersResponses.

Definition REQUIRED_SERVICE_IF : list string :=
  ["getIName"; "getEndpointNames"; "getEndpointDefFor"].

(** What the mixin needs of the object it is mixed into ([this]): its
    name, its validity when it has an [isValid], and the two hooks, which
    may log. *)
Class Host (T : Type) : Type := {
  getIName : T -> string;
  isValid : T -> option bool;
  getHTTPServer : T -> logged value;
  getRenderMethodForEndpoint : T -> string -> logged value
}.

(** The hooks as the mixin itself defines them, on an object that
    overrides neither. *)
#[global] Instance Unimplemented : Host NamedBase.t := {|
  getIName := NamedBase.getIName;
  isValid := fun self => Some (NamedBase.isValid self);
  getHTTPServer := fun _ =>
    (VNull, [(Error, "Method not implemented, don't know how to get HTTP server instance")]);
  getRenderMethodForEndpoint := fun _ _ =>
    (VNull, [(Error, "Method not implemented, don't know to what method renders responses for endpoint {0}")])
|}.

Section Mixin.

Context {T : Type} {host : Host T}.
Variable env : environment.

(** [_.exec(this, "getIName") || "[Unknown class that RendersResponses]"] *)
Definition instanceNameOf (self : T) : string :=
  if String.eqb (getIName self) "" then "[Unknown class that RendersResponses]"
  else getIName self.

(** The completion callback inside [handlerFunc]: [function(data, err)]. *)
Definition readyCallbackFunc (self : T) (cb : readyCallback) (data err : value)
  : M value :=
  let rendererValid := match isValid self with Some b => b | None => true end in
  if negb rendererValid then
    emit (EvNext (cb_next cb)
            (VObj [("message",
                    VStr (fmt "Renderer {0} invalid, unable to handle request to endpoint {1}"
                              [getIName self; cb_endpointName cb]));
                   ("code", VStr "ERR_RENDERER_INVALID")])) ;;
    ret VUndef
  else
    call env (cb_endpointRenderMethod cb)
         [cb_req cb; cb_res cb; cb_next cb; data; err] ;;
    ret VUndef.

(** The composite handler [handlerFunc] built by
    [_llCreateEndpointHandlerFunc]: [function(req, res, next)]. *)
Definition handlerFunc (service : IService.t) (endpointName : string)
    (endpointMethod endpointRenderMethod : value) (req res next : value)
  : M value :=
  log Debug "" ;;
  log Debug "" ;;
  log Debug "Handling request : {0}" ;;
  log Debug "Request path     : {0}" ;;
  log Debug "" ;;
  let serviceValid :=
    match IService.isValid service with Some b => b | None => true end in
  if negb serviceValid then
    serviceName <- callMethod "service.getIName" (IService.getIName service) ;;
    emit (EvNext next
            (VObj [("message",
                    VStr (fmt "Service {0} invalid, unable to handle request to endpoint {1}"
                              [serviceName; endpointName]));
                   ("code", VStr "ERR_SERVICE_INVALID")])) ;;
    ret (VBool false)
  else
    callProcessing env endpointMethod req
      (ReadyCallback endpointName endpointRenderMethod req res next).

(** A request delivered to a handler made by this mixin. *)
Definition applyHandler (service : IService.t) (h : handler)
    (req res next : value) : M value :=
  match h with
  | EndpointHandlerFunc _ endpointName endpointMethod endpointRenderMethod =>
      handlerFunc service endpointName endpointMethod endpointRenderMethod
                  req res next
  | ValidatedHandlerFunc _ _ => throw "not a handler of this mixin"
  end.

Definition _llCreateEndpointHandlerFunc (self : T) (service : IService.t)
    (endpointName : string) : M (option handler) :=
  let instanceName := instanceNameOf self in
  getMethod <- callMethod "service.getMethodForEndpoint"
                          (IService.getMethodForEndpoint service) ;;
  let endpointMethod := getMethod endpointName in
  if negb (_func endpointMethod) then
    log Error "Endpoint {0}: no processing method found for endpoint, unable to create endpoint handler function" ;;
    ret None
  else
    endpointRenderMethod <- liftL (getRenderMethodForEndpoint self endpointName) ;;
    if negb (_func endpointRenderMethod) then
      log Error "Endpoint {0}: Unable to get endpoint response rendering method, unable to create endpoint handler function" ;;
      ret None
    else
      ret (Some (EndpointHandlerFunc instanceName endpointName
                                     endpointMethod endpointRenderMethod)).

Definition _llRegisterEndpointHandler (self : T) (endpointName : string)
    (endpointDef servicePathRoot : value) (endpointHandlerFunc : handler)
  : M value :=
  let HTTPMethod := js_or (prop endpointDef "HTTPMethod") (VStr "get") in
  let __URLPath := _joinPaths [servicePathRoot; prop endpointDef "URLSubpath"] in
  let HTTPMethod :=
    match HTTPMethod with
    | VStr s => VStr (toLowerCase s)
    | _ => HTTPMethod
    end in
  server <- liftL (getHTTPServer self) ;;
  if negb (_hasMethod server HTTPMethod) then
    log Error "Endpoint {0} : HTTP method [{0}] not known by server, unable to register endpoint handler" ;;
    ret VNull
  else
    emit (EvRoute server HTTPMethod __URLPath endpointHandlerFunc) ;;
    ret __URLPath.

Definition _llSetupRenderingFor (self : T) (service : IService.t)
    (endpointName : string) (servicePathRoot : value) : M value :=
  endpointHandlerFunc <- _llCreateEndpointHandlerFunc self service endpointName ;;
  match endpointHandlerFunc with
  | None =>
      log Error "Endpoint {0} : creation of endpoint handler function failed, unable to set up response rendering" ;;
      ret VNull
  | Some endpointHandlerFunc =>
      getDef <- callMethod "service.getEndpointDefFor"
                           (IService.getEndpointDefFor service) ;;
      let endpointDef := getDef endpointName in
      if negb (_obj endpointDef) then
        log Error "Endpoint {0} : endpoint definition is not an object, unable to set up response rendering" ;;
        ret VNull
      else
        _llRegisterEndpointHandler self endpointName endpointDef
                                   servicePathRoot endpointHandlerFunc
  end.

(** The [for (var idx in endpointNames)] loop of [renderResponsesFor];
    it returns [numSetupSuccess]. *)
Fixpoint setupEndpoints (self : T) (service : IService.t)
    (servicePathRoot : value) (endpointNames : list string)
    (numSetupSuccess : nat) : M nat :=
  match endpointNames with
  | [] => ret numSetupSuccess
  | endpointName :: rest =>
      URLPath <- _llSetupRenderingFor self service endpointName servicePathRoot ;;
      if _def URLPath then
        log Info "" ;;
        log Info "Response rendering setup complete for : " ;;
        log Info "Endpoint {0}" ;;
        log Info "" ;;
        setupEndpoints self service servicePathRoot rest (numSetupSuccess + 1)
      else
        log Error "Endpoint {0} : response rendering setup failed" ;;
        setupEndpoints self service servicePathRoot rest numSetupSuccess
  end.

(** [endpoints] is [Some] of the names when the caller passes an array. *)
Definition renderResponsesFor (self : T) (service : IService.t)
    (servicePathRoot : value) (endpoints : option (list string)) : M bool :=
  let servicePathRoot := js_or servicePathRoot (VStr "/") in
  if negb (_interfaceAdheres service REQUIRED_SERVICE_IF) then
    log Error "The provided service does not adhere to the required interface to enable response rendering for endpoints. Required interface definition : " ;;
    ret false
  else
    serviceName <- callMethod "service.getIName" (IService.getIName service) ;;
    endpointNames <-
      match endpoints with
      | Some names => ret (Some names)
      | None => callMethod "service.getEndpointNames"
                           (IService.getEndpointNames service)
      end ;;
    match endpointNames with
    | None =>
        log Error "No valid list of endpoint names given by service, unable to setup response rendering for endpoints of {0}" ;;
        ret false
    | Some endpointNames =>
        if _empty endpointNames then
          log Warn "Service {0} has no endpoints to setup response rendering for, nothing to do" ;;
          ret true
        else
          log Info "" ;;
          log Info "Setting up response rendering for {0} service endpoints, with path root {1}" ;;
          numSetupSuccess <-
            setupEndpoints self service servicePathRoot endpointNames 0 ;;
          if (numSetupSuccess <? 1)%nat then
            log Error "Unable to setup response rendering for any endpoints of service {0}" ;;
            ret false
          else ret true
    end.

End Mixin.

End RendersResponses.

(** ** JSONRenderer ([json-renderer.js]) *)

Module JSONRenderer.

Record t : Type := Make {
  base : NamedBase.t;
  _server : value;
  _responseHeaders : value
}.

Definition getIName (self : t) : string := NamedBase.getIName (base self).

Definition isValid (self : t) : bool := NamedBase.isValid (base self).

Definition set_valid (b : bool) (self : t) : t :=
  {| base := NamedBase.Make (NamedBase._instanceName (base self)) b;
     _server := _server self;
     _responseHeaders := _responseHeaders self |}.

Definition constructor (rendererName : string) (server config : value) : M t :=
  let this := {| base := NamedBase.constructor rendererName;
                 _server := VNull;
                 _responseHeaders := VNull |} in
  let this := set_valid true this in
  let this := {| base := base this;
                 _server := server;
                 _responseHeaders := _responseHeaders this |} in
  this <- (if negb (_obj (_server this)) then
             log Error "Server is invalid, JSON renderer will not function properly" ;;
             ret (set_valid false this)
           else ret this) ;;
  ret {| base := base this;
         _server := _server this;
         _responseHeaders := _get config "responseHeaders" |}.

Definition getHTTPServer (self : t) : value := _server self.

Definition getRenderMethodForEndpoint (self : t) (endpointName : string)
  : value := VFun RenderJSON.

(** [self._renderJSON(req, res, next, data, err, status)] *)
Definition _renderJSON (env : environment) (self : t)
    (req res next data err status : value) : M value :=
  renderJSON_body env (_responseHeaders self) req res next data err status.

#[global] Instance host : RendersResponses.Host t := {|
  RendersResponses.getIName := getIName;
  RendersResponses.isValid := fun self => Some (isValid self);
  RendersResponses.getHTTPServer := fun self => quiet (getHTTPServer self);
  RendersResponses.getRenderMethodForEndpoint :=
    fun self endpointName => quiet (getRenderMethodForEndpoint self endpointName)
|}.

End JSONRenderer.

(** ** ServerAppChunk ([server-app-chunk.js]) *)

Module ServerAppChunk.

Record t : Type := Make {
  super : Service.t;
  _URLPathRoot : value;
  _server : value;
  _endpointRenderMethodMap : value
}.

Definition getIName (self : t) : string := Service.getIName (super self).

Definition isValid (self : t) : bool := Service.isValid (super self).

Definition set_valid (b : bool) (self : t) : t :=
  {| super := Service.set_valid b (super self);
     _URLPathRoot := _URLPathRoot self;
     _server := _server self;
     _endpointRenderMethodMap := _endpointRenderMethodMap self |}.

Definition getHTTPServer (self : t) : value := _server self.

Definition getRenderMethodForEndpoint (self : t) (endpointName : string)
  : value := _get (_endpointRenderMethodMap self) endpointName.

#[global] Instance host : RendersResponses.Host t := {|
  RendersResponses.getIName := getIName;
  RendersResponses.isValid := fun self => Some (isValid self);
  RendersResponses.getHTTPServer := fun self => quiet (getHTTPServer self);
  RendersResponses.getRenderMethodForEndpoint :=
    fun self endpointName => quiet (getRenderMethodForEndpoint self endpointName)
|}.

(** Overridable: [None] is the base implementation. *)
Definition _mapEndpointsToRenderMethods (override : option (t -> value))
    (self : t) : M value :=
  match override with
  | Some f => ret (f self)
  | None =>
      log Debug "This server app chunk does not render any responses for external endpoints" ;;
      ret (VObj [])
  end.

(** The handler made by [_llCreateValidatedHandlerFunc]:
    [function(req, res, next)]. *)
Definition validatedHandlerFunc (env : environment) (self : t)
    (endpointName : string) (handlerFunc : value) (req res next : value)
  : M value :=
  (if negb (isValid self) then
     emit (EvNext next
             (VObj [("message",
                     VStr (fmt "Endpoint {0} : Server app chunk {0} is not valid, unable to handle request"
                               [endpointName; getIName self]));
                    ("code", VStr "ERR_SERVER_APP_CHUNK_INVALID")]))
   else ret tt) ;;
  call env handlerFunc [req; res; next].

Definition _llCreateValidatedHandlerFunc (self : t) (endpointName : string)
    (handlerFunc : value) : option handler :=
  Some (ValidatedHandlerFunc endpointName handlerFunc).

(** A request delivered to a handler the chunk registered for itself. *)
Definition applyHandler (env : environment) (self : t) (h : handler)
    (req res next : value) : M value :=
  match h with
  | ValidatedHandlerFunc endpointName handlerFunc =>
      validatedHandlerFunc env self endpointName handlerFunc req res next
  | EndpointHandlerFunc _ _ _ _ => throw "not a handler of the chunk itself"
  end.

(** The [for (var idx in endpointNames)] loop of
    [_registerEndpointHandlers]; it returns [numSetupSuccess]. *)
Fixpoint registerEndpoints (self : t) (endpointNames : list string)
    (numSetupSuccess : nat) : M nat :=
  match endpointNames with
  | [] => ret numSetupSuccess
  | endpointName :: rest =>
      let endpointDef := Service.getEndpointDefFor (super self) endpointName in
      if negb (_obj endpointDef) then
        log Error "Endpoint {0} : no endpoint definition available, unable to register endpoint handler" ;;
        registerEndpoints self rest numSetupSuccess
      else
        let endpointHandler := Service.getMethodForEndpoint (super self) endpointName in
        if negb (_func endpointHandler) then
          log Error "Endpoint {0} : no endpoint handler available, unable to register endpoint handler" ;;
          registerEndpoints self rest numSetupSuccess
        else
          match _llCreateValidatedHandlerFunc self endpointName endpointHandler with
          | None =>
              log Error "Endpoint {0} : creating validated endpoint handler failed, unable to register endpoint handler" ;;
              registerEndpoints self rest numSetupSuccess
          | Some endpointHandler =>
              URLPath <- RendersResponses._llRegisterEndpointHandler
                           self endpointName endpointDef (_URLPathRoot self)
                           endpointHandler ;;
              if _def URLPath then
                log Info "Endpoint {0} : Registration of handler success at [{1}]" ;;
                registerEndpoints self rest (numSetupSuccess + 1)
              else
                log Error "Endpoint {0} : Registration of handler failed" ;;
                registerEndpoints self rest numSetupSuccess
          end
  end.

Definition _registerEndpointHandlers (self : t) : M bool :=
  endpointNames <- Service.getEndpointNames (super self) ;;
  match endpointNames with
  | None =>
      log Error "Unable to get endpoint names, can't register endpoints" ;;
      ret false
  | Some endpointNames =>
      if _empty endpointNames then
        log Info "No endpoints provided, nothing to register" ;;
        ret true
      else
        log Info "Registering endpoint handlers ..." ;;
        numSetupSuccess <- registerEndpoints self endpointNames 0 ;;
        if (numSetupSuccess <? 1)%nat then
          log Error "Unable to register any endpoint handlers" ;;
          ret false
        else ret true
  end.

(** The [for (var idx in endpointNames)] loop of
    [_endpointRenderMethodMapValid]. *)
Fixpoint checkRenderNames (self : t) (endpointNames : list string)
    (valid : bool) : M bool :=
  match endpointNames with
  | [] => ret valid
  | name :: rest =>
      if negb (_func (_get (Service._endpointMethodMap (super self)) name)) then
        log Error "Endpoint {0} has no mapping to an instance method, thus mapping not valid" ;;
        checkRenderNames self rest false
      else checkRenderNames self rest valid
  end.

Definition _endpointRenderMethodMapValid (self : t) : M bool :=
  endpointNames <- Service.getEndpointNames (super self) ;;
  match endpointNames with
  | None =>
      log Error "Unable to get endpoint names, thus mapping not valid" ;;
      ret false
  | Some names => checkRenderNames self names true
  end.

(** What a subclass overrides: the two mapping steps. *)
Record overrides : Type := Overrides {
  mapEndpointsToMethods : option (Service.t -> value);
  mapEndpointsToRenderMethods : option (t -> value)
}.

Definition constructor (chunkName : string) (config : value)
    (ov : overrides) : M t :=
  super <- Service.constructor chunkName config (mapEndpointsToMethods ov) ;;
  let this := {| super := super;
                 _URLPathRoot := VNull;
                 _server := VNull;
                 _endpointRenderMethodMap := VUndef |} in
  let this := set_valid true this in
  let this := {| super := ServerAppChunk.super this;
                 _URLPathRoot := js_or (_get config "URLPathRoot") (VStr "/");
                 _server := _get config "server";
                 _endpointRenderMethodMap := _endpointRenderMethodMap this |} in
  this <- (if negb (_obj (_server this)) then
             log Error "Server is invalid, server app chunk [{0}] will not function properly" ;;
             ret (set_valid false this)
           else ret this) ;;
  if negb (isValid this) then
    log Error "Errors occurred while constructing [{0}], will not set up server app chunk ..." ;;
    ret this
  else
    registered <- _registerEndpointHandlers this ;;
    this <- (if negb registered then
               log Error "Registration of endpoint handlers was unsuccessful, server app chunk [{0}] will not function properly" ;;
               ret (set_valid false this)
             else ret this) ;;
    renderMap <- _mapEndpointsToRenderMethods (mapEndpointsToRenderMethods ov) this ;;
    ret {| super := ServerAppChunk.super this;
           _URLPathRoot := _URLPathRoot this;
           _server := _server this;
           _endpointRenderMethodMap := renderMap |}.

End ServerAppChunk.

(** A [Service] instance as the service argument of [renderResponsesFor]:
    what its five methods give (their log lines apart). *)
Definition serviceInterface (s : Service.t) : IService.t :=
  {| IService.getIName := Some (Service.getIName s);
     IService.getEndpointNames :=
       Some (if _obj (Service._endpointTable s)
             then Some (getOwnPropertyNames (Service._endpointTable s))
             else None);
     IService.getEndpointDefFor := Some (Service.getEndpointDefFor s);
     IService.getMethodForEndpoint := Some (Service.getMethodForEndpoint s);
     IService.isValid := Some (Service.isValid s) |}.

(** ** Observations on runs *)

(** The error objects passed to [next] among some calls. *)
Fixpoint nextErrors (evs : list event) : list value :=
  match evs with
  | [] => []
  | EvNext _ err :: rest => err :: nextErrors rest
  | _ :: rest => nextErrors rest
  end.

Definition isStatusCall (e : event) : bool :=
  match e with EvStatus _ _ => true | _ => false end.

(** The list of endpoint names [renderResponsesFor] works on: [endpoints]
    when given, else what [service.getEndpointNames()] returns. *)
Definition selection (service : IService.t) (endpoints : option (list string))
  : option (list string) :=
  match endpoints with
  | Some names => Some names
  | None =>
      match IService.getEndpointNames service with
      | Some r => r
      | None => None
      end
  end.

(** The [code] of the three errors the library makes. *)
Definition errorCodes : list string :=
  ["ERR_SERVICE_INVALID"; "ERR_RENDERER_INVALID"; "ERR_SERVER_APP_CHUNK_INVALID"].

Definition knownCode (err : value) : bool :=
  match prop err "code" with
  | VStr c => existsb (String.eqb c) errorCodes
  | _ => false
  end.

(** The value of the variable [HTTPMethod] of [_llRegisterEndpointHandler]
    when the server is asked for a method of that name. *)
Definition resolvedHTTPMethod (endpointDef : value) : value :=
  match js_or (prop endpointDef "HTTPMethod") (VStr "get") with
  | VStr s => VStr (toLowerCase s)
  | v => v
  end.

(** The error the validity wrapper of a chunk passes to [next]. *)
Definition chunkInvalidError (self : ServerAppChunk.t) (endpointName : string)
  : value :=
  VObj [("message",
         VStr (fmt "Endpoint {0} : Server app chunk {0} is not valid, unable to handle request"
                   [endpointName; ServerAppChunk.getIName self]));
        ("code", VStr "ERR_SERVER_APP_CHUNK_INVALID")].

(** What the chunk registers for itself: validity wrappers around
    functions of its endpoint method map. *)
Definition wrapsMethodOf (self : ServerAppChunk.t) (e : event) : Prop :=
  exists verb path endpointName,
    e = EvRoute (ServerAppChunk._server self) verb path
          (ValidatedHandlerFunc endpointName
             (Service.getMethodForEndpoint (ServerAppChunk.super self)
                                           endpointName)) /\
    _func (Service.getMethodForEndpoint (ServerAppChunk.super self)
                                        endpointName) = true.

(** The service with another [isValid] method, or none. *)
Definition withValidity (v : option bool) (service : IService.t) : IService.t :=
  {| IService.getIName := IService.getIName service;
     IService.getEndpointNames := IService.getEndpointNames service;
     IService.getEndpointDefFor := IService.getEndpointDefFor service;
     IService.getMethodForEndpoint := IService.getMethodForEndpoint service;
     IService.isValid := v |}.

(** The chunk has, for this endpoint, a definition that is an object, a
    method that is a function, and a server that knows the verb. *)
Definition chunkRegisters (self : ServerAppChunk.t) (endpointName : string)
  : bool :=
  let endpointDef :=
    Service.getEndpointDefFor (ServerAppChunk.super self) endpointName in
  _obj endpointDef &&
  _func (Service.getMethodForEndpoint (ServerAppChunk.super self) endpointName) &&
  _hasMethod (ServerAppChunk._server self) (resolvedHTTPMethod endpointDef).

(** The registration of that endpoint's validity wrapper. *)
Definition chunkRoute (self : ServerAppChunk.t) (endpointName : string)
  : event :=
  let endpointDef :=
    Service.getEndpointDefFor (ServerAppChunk.super self) endpointName in
  EvRoute (ServerAppChunk._server self) (resolvedHTTPMethod endpointDef)
    (_joinPaths [ServerAppChunk._URLPathRoot self; prop endpointDef "URLSubpath"])
    (ValidatedHandlerFunc endpointName
       (Service.getMethodForEndpoint (ServerAppChunk.super self) endpointName)).

Section Expected.

Context {T : Type} {host : RendersResponses.Host T}.

(** The service has, for this endpoint, a processing method that is a
    function and a definition that is an object, the renderer has a render
    method that is a function, and its server knows the verb. *)
Definition setupSucceeds (self : T) (service : IService.t)
    (endpointName : string) : bool :=
  match IService.getMethodForEndpoint service,
        IService.getEndpointDefFor service with
  | Some getMethod, Some getDef =>
      _func (getMethod endpointName) &&
      _func (fst (RendersResponses.getRenderMethodForEndpoint self endpointName)) &&
      _obj (getDef endpointName) &&
      _hasMethod (fst (RendersResponses.getHTTPServer self))
                 (resolvedHTTPMethod (getDef endpointName))
  | _, _ => false
  end.

(** The registration of that endpoint's composite handler, if any. *)
Definition expectedRegistrations (self : T) (service : IService.t)
    (servicePathRoot : value) (endpointName : string) : list event :=
  match IService.getMethodForEndpoint service,
        IService.getEndpointDefFor service with
  | Some getMethod, Some getDef =>
      if setupSucceeds self service endpointName then
        [EvRoute (fst (RendersResponses.getHTTPServer self))
           (resolvedHTTPMethod (getDef endpointName))
           (_joinPaths [js_or servicePathRoot (VStr "/");
                        prop (getDef endpointName) "URLSubpath"])
           (EndpointHandlerFunc (RendersResponses.instanceNameOf self)
              endpointName (getMethod endpointName)
              (fst (RendersResponses.getRenderMethodForEndpoint self
                                                                endpointName)))]
      else []
  | _, _ => []
  end.

End Expected.

Section Alone.

Context {T : Type} {host : RendersResponses.Host T}.

(** One endpoint set up on its own, from the empty world. *)
Definition setupAlone (self : T) (service : IService.t)
    (servicePathRoot : value) (endpointName : string) : outcome value * world :=
  RendersResponses._llSetupRenderingFor self service endpointName
    (js_or servicePathRoot (VStr "/")) empty_world.

(** The endpoint's setup returned a URL path. *)
Definition registered (self : T) (service : IService.t)
    (servicePathRoot : value) (endpointName : string) : bool :=
  match fst (setupAlone self service servicePathRoot endpointName) with
  | Ret URLPath => _def URLPath
  | Throw _ => false
  end.

(** The calls the endpoint's setup made. *)
Definition registrations (self : T) (service : IService.t)
    (servicePathRoot : value) (endpointName : string) : list event :=
  calls (snd (setupAlone self service servicePathRoot endpointName)).

End Alone.

(** ** Sample objects *)

Module Scenario.

(** A framework whose functions return [undefined] and whose response
    channel methods return the channel itself. *)
Definition env0 : environment :=
  {| returns := fun _ _ => VUndef;
     status_returns := fun res _ => res;
     set_returns := fun res _ => res |}.

Definition server0 : value :=
  VObj [("get", VFun (Extern "server.get"));
        ("post", VFun (Extern "server.post"))].

Definition req0 : value := VObj [("path", VStr "/api/users/7")].
Definition res0 : value := VStr "res".
Definition next0 : value := VFun (Extern "next").

(** Three endpoints; the method map has no entry for "remove". *)
Definition table3 : value :=
  VObj [("list", VObj [("HTTPMethod", VStr "GET"); ("URLSubpath", VStr "/users")]);
        ("remove", VObj [("HTTPMethod", VStr "delete"); ("URLSubpath", VStr "/users/:id")]);
        ("add", VObj [("HTTPMethod", VStr "POST"); ("URLSubpath", VStr "/users")])].

Definition methods2 : value :=
  VObj [("list", VFun (Extern "listUsers")); ("add", VFun (Extern "addUser"))].

Definition users : Service.t :=
  {| Service.base := NamedBase.Make "users" false;
     Service._endpointTable := table3;
     Service._endpointMethodMap := methods2 |}.

Definition renderer : JSONRenderer.t :=
  {| JSONRenderer.base := NamedBase.Make "json" true;
     JSONRenderer._server := server0;
     JSONRenderer._responseHeaders := VUndef |}.

Definition brokenRenderer : JSONRenderer.t :=
  JSONRenderer.set_valid false renderer.

(** An object with the three required methods and nothing else. *)
Definition bare : IService.t :=
  {| IService.getIName := Some "bare";
     IService.getEndpointNames := Some (Some ["a"]);
     IService.getEndpointDefFor := Some (fun _ => VObj [("URLSubpath", VStr "/a")]);
     IService.getMethodForEndpoint := None;
     IService.isValid := None |}.

(** An object without [getEndpointDefFor]. *)
Definition partial : IService.t :=
  {| IService.getIName := Some "partial";
     IService.getEndpointNames := Some (Some ["a"]);
     IService.getEndpointDefFor := None;
     IService.getMethodForEndpoint := Some (fun _ => VFun (Extern "a"));
     IService.isValid := None |}.

(** A chunk configuration with two views, of which the subclass maps
    only the first to a method. *)
Definition views : value :=
  VObj [("endpointTable",
         VObj [("home", VObj [("URLSubpath", VStr "/home")]);
               ("about", VObj [("URLSubpath", VStr "/about")])]);
        ("server", server0)].

Definition homeOnly : ServerAppChunk.overrides :=
  {| ServerAppChunk.mapEndpointsToMethods :=
       Some (fun _ => VObj [("home", VFun (Extern "homeView"))]);
     ServerAppChunk.mapEndpointsToRenderMethods := None |}.

Definition chunk : ServerAppChunk.t :=
  {| ServerAppChunk.super :=
       {| Service.base := NamedBase.Make "app" false;
          Service._endpointTable := prop views "endpointTable";
          Service._endpointMethodMap := VObj [("home", VFun (Extern "homeView"))] |};
     ServerAppChunk._URLPathRoot := VStr "/";
     ServerAppChunk._server := server0;
     ServerAppChunk._endpointRenderMethodMap := VObj [] |}.

(** An error of the application, as a processing method reports it. *)
Definition notFound : value :=
  VObj [("message", VStr "no such user"); ("code", VStr "ERR_NOT_FOUND")].

(** The configuration of "users", and a method map for all three
    endpoints. *)
Definition usersConfig : value := VObj [("endpointTable", table3)].

Definition methods3 : value :=
  VObj [("list", VFun (Extern "listUsers"));
        ("remove", VFun (Extern "removeUser"));
        ("add", VFun (Extern "addUser"))].

(** A service built without an endpoint table. *)
Definition tableless : Service.t :=
  {| Service.base := NamedBase.Make "tableless" false;
     Service._endpointTable := VUndef;
     Service._endpointMethodMap := VNull |}.

End Scenario.

(** A computation is framed when the world it starts from only shows as a
    prefix of the calls and the log lines it leaves. *)
Definition framed {A : Type} (m : M A) : Prop :=
  forall w,
    m w = (fst (m empty_world),
           World (calls w ++ calls (snd (m empty_world)))
                 (logs w ++ logs (snd (m empty_world)))).

(** * Properties *)

(** ** Computations *)

Ltac run :=
  unfold bind, ret, throw, emit, log, liftL, callMethod, quiet; simpl.

Lemma world_eta (w : world) : World (calls w) (logs w) = w.
Proof. destruct w; reflexivity. Qed.

Lemma framed_ret {A} (a : A) : framed (ret a).
Proof. intros w. run. now rewrite !app_nil_r, world_eta. Qed.

Lemma framed_throw {A} (e : string) : framed (@throw A e).
Proof. intros w. run. now rewrite !app_nil_r, world_eta. Qed.

Lemma framed_emit (e : event) : framed (emit e).
Proof. intros w. run. now rewrite app_nil_r. Qed.

Lemma framed_log (l : level) (msg : string) : framed (log l msg).
Proof. intros w. run. now rewrite app_nil_r. Qed.

Lemma framed_liftL {A} (m : logged A) : framed (liftL m).
Proof. intros w. run. now rewrite app_nil_r. Qed.

Lemma framed_callMethod {A} (name : string) (m : option A) :
  framed (callMethod name m).
Proof. destruct m; [apply framed_ret | apply framed_throw]. Qed.

Lemma framed_bind {A B} (m : M A) (k : A -> M B) :
  framed m -> (forall a, framed (k a)) -> framed (bind m k).
Proof.
  intros Hm Hk w. unfold bind.
  rewrite (Hm w). destruct (m empty_world) as [[a | e] w0]; simpl.
  - rewrite (Hk a (World _ _)), (Hk a w0). simpl.
    now rewrite !app_assoc.
  - reflexivity.
Qed.

Lemma framed_if {A} (b : bool) (m1 m2 : M A) :
  framed m1 -> framed m2 -> framed (if b then m1 else m2).
Proof. now destruct b. Qed.

Create HintDb framed.
#[export] Hint Resolve framed_ret framed_throw framed_emit framed_log
  framed_liftL framed_callMethod framed_bind framed_if : framed.

Ltac framed :=
  repeat match goal with
         | |- framed (bind _ _) => apply framed_bind
         | |- framed (if _ then _ else _) => apply framed_if
         | |- forall _, _ => intro
         end;
  auto with framed.

Lemma framed_run {A} (m : M A) (w : world) (r : outcome A) (w0 : world) :
  framed m -> m empty_world = (r, w0) ->
  m w = (r, World (calls w ++ calls w0) (logs w ++ logs w0)).
Proof. intros Hm E. rewrite (Hm w), E. reflexivity. Qed.

(** ** Service *)

Lemma checkNames_spec (self : Service.t) (names : list string) :
  forall valid w, exists l,
    Service.checkNames self names valid w =
    (Ret (valid && forallb (fun n => _func (Service.getMethodForEndpoint self n)) names),
     World (calls w) (logs w ++ l)).
Proof.
  induction names as [| n names IH]; intros valid w; simpl.
  - exists []. run. now rewrite andb_true_r, app_nil_r, world_eta.
  - unfold Service.getMethodForEndpoint at 1.
    destruct (_func (_get (Service._endpointMethodMap self) n)); simpl.
    + apply IH.
    + run. destruct (IH false (World (calls w) (logs w ++ [(Error, "Endpoint {0} has no mapping to an instance method, thus mapping not valid")]))) as [l E].
      rewrite E. simpl. rewrite andb_false_r. eexists. now rewrite <- app_assoc.
Qed.

Lemma forallb_false_iff {A} (f : A -> bool) (l : list A) :
  forallb f l = false <-> exists x, In x l /\ f x = false.
Proof.
  induction l as [| a l IH]; simpl.
  - split; [discriminate | intros (x & [] & _)].
  - rewrite andb_false_iff, IH. split.
    + intros [H | (x & Hx & Hf)]; [exists a | exists x]; auto.
    + intros (x & [-> | Hx] & Hf); [now left | right; now exists x].
Qed.

Lemma endpointMethodMapValid_spec (self : Service.t) (w : world) :
  exists l,
    Service._endpointMethodMapValid self w =
    (Ret (_obj (Service._endpointTable self) &&
          forallb (fun n => _func (Service.getMethodForEndpoint self n))
                  (getOwnPropertyNames (Service._endpointTable self))),
     World (calls w) (logs w ++ l)).
Proof.
  unfold Service._endpointMethodMapValid, Service.getEndpointNames.
  destruct (_obj (Service._endpointTable self)); run.
  - destruct (checkNames_spec self
                (getOwnPropertyNames (Service._endpointTable self)) true w)
      as [l E].
    rewrite E. now exists l.
  - eexists. now rewrite <- app_assoc.
Qed.

(** The instance the constructor has built when it checks the mapping. *)
Lemma Service_constructor_run (serviceName : string) (config : value)
    (override : option (Service.t -> value)) (w : world) :
  exists (map : value) (l : list logentry),
    let this valid :=
      {| Service.base := NamedBase.Make serviceName valid;
         Service._endpointTable := _get config "endpointTable";
         Service._endpointMethodMap := map |} in
    Service.constructor serviceName config override w =
    (Ret (this (_obj (_get config "endpointTable") &&
                forallb (fun n => _func (_get map n))
                        (getOwnPropertyNames (_get config "endpointTable")))),
     World (calls w) (logs w ++ l)).
Proof.
  unfold Service.constructor, Service._mapEndpointsToMethods,
    Service.set_endpointMethodMap, Service.set_valid.
  destruct override as [f |]; run.
  - match goal with
    | |- context [Service._endpointMethodMapValid ?s w] =>
        destruct (endpointMethodMapValid_spec s w) as [l E]; rewrite E;
        exists (Service._endpointMethodMap s)
    end.
    simpl. unfold Service.getMethodForEndpoint. simpl.
    destruct (_obj _ && _); simpl.
    + now exists l.
    + eexists. now rewrite <- app_assoc.
  - match goal with
    | |- context [Service._endpointMethodMapValid ?s ?w0] =>
        destruct (endpointMethodMapValid_spec s w0) as [l E]; rewrite E;
        exists (Service._endpointMethodMap s)
    end.
    simpl. unfold Service.getMethodForEndpoint. simpl.
    destruct (_obj _ && _); simpl.
    + eexists. now rewrite <- app_assoc.
    + eexists. now rewrite <- !app_assoc.
Qed.

(** C7: constructing a [Service] always returns an instance and makes no
    call; its validity flag is false exactly when [getEndpointNames()]
    gives no list of names, or some name of that list has no function in
    the endpoint method map. *)
Theorem Service_constructor_validity :
  forall (serviceName : string) (config : value)
         (override : option (Service.t -> value)) (w : world),
  exists (self : Service.t) (w' : world),
    Service.constructor serviceName config override w = (Ret self, w') /\
    calls w' = calls w /\
    Service.getIName self = serviceName /\
    Service._endpointTable self = _get config "endpointTable" /\
    (Service.isValid self = false <->
       fst (Service.getEndpointNames self w') = Ret None \/
       exists names name,
         fst (Service.getEndpointNames self w') = Ret (Some names) /\
         In name names /\
         _func (Service.getMethodForEndpoint self name) = false).
Proof.
  intros serviceName config override w.
  destruct (Service_constructor_run serviceName config override w)
    as (map & l & E).
  cbv zeta in E. rewrite E. eexists. eexists.
  split; [reflexivity |]. repeat split; try reflexivity.
  - unfold Service.isValid, NamedBase.isValid, Service.getEndpointNames,
      Service.getMethodForEndpoint. simpl.
    destruct (_obj (_get config "endpointTable")); simpl.
    + intros H. right. apply forallb_false_iff in H as (x & Hx & Hf).
      now exists (getOwnPropertyNames (_get config "endpointTable")), x.
    + now left.
  - unfold Service.isValid, NamedBase.isValid, Service.getEndpointNames,
      Service.getMethodForEndpoint. simpl.
    destruct (_obj (_get config "endpointTable")); simpl.
    + intros [H | (names & name & H & Hin & Hf)]; [discriminate H |].
      injection H as <-. apply forallb_false_iff. now exists name.
    + reflexivity.
Qed.

(** ** JSONRenderer *)

(** C6: [_renderJSON] with a defined [err] passes it unchanged to [next]
    and does nothing else; with an undefined [err] it calls [status] first
    when [status] is a number, then [set] when response headers are
    configured, and ends with [json] on the data, wrapped as
    [{data: <value>}] when it is not an object.  For [data = 5] and
    [status = 201] it calls [status(201)] and then [json({data: 5})]. *)
Theorem renderJSON_calls :
  forall (env : environment) (self : JSONRenderer.t)
         (req res next data err status : value) (w : world),
    let headers := JSONRenderer._responseHeaders self in
    let res1 := if _number status then status_returns env res status else res in
    let res2 := if _obj headers then set_returns env res1 headers else res1 in
    (_def err = true ->
       JSONRenderer._renderJSON env self req res next data err status w =
       (Ret VUndef, World (calls w ++ [EvNext next err]) (logs w))) /\
    (err = VUndef ->
       JSONRenderer._renderJSON env self req res next data err status w =
       (Ret VUndef,
        World (calls w
                 ++ (if _number status then [EvStatus res status] else [])
                 ++ (if _obj headers then [EvSet res1 headers] else [])
                 ++ [EvJson res2 (if _obj data then data
                                  else VObj [("data", data)])])
              (logs w))) /\
    (err = VUndef -> data = VNum 5 -> status = VNum 201 ->
       exists between,
         calls (snd (JSONRenderer._renderJSON env self req res next
                                              data err status w)) =
         (calls w ++ EvStatus res (VNum 201) :: between
                  ++ [EvJson res2 (VObj [("data", VNum 5)])])%list /\
         (_obj headers = false -> between = [])).
Proof.
  intros env self req res next data err status w headers res1 res2.
  assert (Hundef :
    err = VUndef ->
    JSONRenderer._renderJSON env self req res next data err status w =
    (Ret VUndef,
     World (calls w
              ++ (if _number status then [EvStatus res status] else [])
              ++ (if _obj headers then [EvSet res1 headers] else [])
              ++ [EvJson res2 (if _obj data then data
                               else VObj [("data", data)])])
           (logs w))).
  { intros ->. subst res2 res1 headers.
    unfold JSONRenderer._renderJSON, renderJSON_body. simpl _def. cbv iota.
    destruct (_number status), (_obj (JSONRenderer._responseHeaders self)),
      (_obj data); run; rewrite <- ?app_assoc; reflexivity. }
  split; [| split].
  - intros Hdef. unfold JSONRenderer._renderJSON, renderJSON_body.
    rewrite Hdef. reflexivity.
  - exact Hundef.
  - intros He -> ->. rewrite (Hundef He). simpl.
    exists (if _obj headers then [EvSet res1 headers] else []).
    split; [reflexivity |]. now intros ->.
Qed.

(** A defined error is forwarded; [5] with status [201] is wrapped and
    sent with that status. *)
Lemma renderJSON_calls_witness :
  JSONRenderer._renderJSON Scenario.env0 Scenario.renderer Scenario.req0
    Scenario.res0 Scenario.next0 VUndef Scenario.notFound VUndef empty_world =
  (Ret VUndef, World [EvNext Scenario.next0 Scenario.notFound] []) /\
  JSONRenderer._renderJSON Scenario.env0 Scenario.renderer Scenario.req0
    Scenario.res0 Scenario.next0 (VNum 5) VUndef (VNum 201) empty_world =
  (Ret VUndef,
   World [EvStatus Scenario.res0 (VNum 201);
          EvJson Scenario.res0 (VObj [("data", VNum 5)])] []).
Proof.
  split.
  - apply (renderJSON_calls Scenario.env0 Scenario.renderer Scenario.req0
             Scenario.res0 Scenario.next0 VUndef Scenario.notFound VUndef
             empty_world).
    reflexivity.
  - apply (renderJSON_calls Scenario.env0 Scenario.renderer Scenario.req0
             Scenario.res0 Scenario.next0 (VNum 5) VUndef (VNum 201)
             empty_world).
    reflexivity.
Defined.

(** ** RendersResponses: the capability check *)

Lemma adheres_required (service : IService.t) :
  _interfaceAdheres service RendersResponses.REQUIRED_SERVICE_IF = true <->
  (exists name, IService.getIName service = Some name) /\
  (exists names, IService.getEndpointNames service = Some names) /\
  (exists getDef, IService.getEndpointDefFor service = Some getDef).
Proof.
  unfold _interfaceAdheres, RendersResponses.REQUIRED_SERVICE_IF,
    IService.exposes. simpl.
  destruct (IService.getIName service), (IService.getEndpointNames service),
    (IService.getEndpointDefFor service); simpl; split;
    try discriminate; try (intros _; repeat split; eexists; reflexivity);
    try reflexivity;
    intros ([? H1] & [? H2] & [? H3]); discriminate.
Qed.

(** C8: when [service] lacks one of [getIName], [getEndpointNames] and
    [getEndpointDefFor], [renderResponsesFor] returns false and has made
    no call: nothing is registered on the server. *)
Theorem renderResponsesFor_requires_interface :
  forall (T : Type) (host : RendersResponses.Host T) (self : T)
         (service : IService.t) (servicePathRoot : value)
         (endpoints : option (list string)) (w : world),
    IService.getIName service = None \/
    IService.getEndpointNames service = None \/
    IService.getEndpointDefFor service = None ->
    fst (RendersResponses.renderResponsesFor self service servicePathRoot
                                             endpoints w) = Ret false /\
    calls (snd (RendersResponses.renderResponsesFor self service servicePathRoot
                                                    endpoints w)) = calls w.
Proof.
  intros T host self service servicePathRoot endpoints w H.
  assert (E : _interfaceAdheres service RendersResponses.REQUIRED_SERVICE_IF
              = false).
  { destruct (_interfaceAdheres _ _) eqn:E; [| reflexivity].
    apply adheres_required in E as ([? H1] & [? H2] & [? H3]).
    destruct H as [H | [H | H]]; congruence. }
  unfold RendersResponses.renderResponsesFor. rewrite E. run. now split.
Qed.

(** An object without [getEndpointDefFor] is turned away. *)
Lemma renderResponsesFor_requires_interface_witness :
  fst (RendersResponses.renderResponsesFor Scenario.renderer Scenario.partial
         (VStr "/api") None empty_world) = Ret false /\
  calls (snd (RendersResponses.renderResponsesFor Scenario.renderer
                Scenario.partial (VStr "/api") None empty_world)) = [].
Proof.
  apply (renderResponsesFor_requires_interface _ _ Scenario.renderer
           Scenario.partial (VStr "/api") None empty_world).
  right. right. reflexivity.
Defined.

(** ** RendersResponses: the composite handler *)

(** C4: a request to a composite handler of a service that passed the
    capability check.  When [service.isValid()] returns false the handler
    passes the [ERR_SERVICE_INVALID] error to [next], returns false and
    does not call the processing method; otherwise it calls the processing
    method with the request and the completion callback.  When that
    callback fires while the renderer's [isValid()] returns false, it
    passes the [ERR_RENDERER_INVALID] error to [next] and does not call
    the render method. *)
Theorem composite_handler_validity_checks :
  forall (env : environment) (T : Type) (host : RendersResponses.Host T)
         (self : T) (service : IService.t) (endpointName : string)
         (endpointMethod endpointRenderMethod req res next : value)
         (w : world),
    _interfaceAdheres service RendersResponses.REQUIRED_SERVICE_IF = true ->
    let h := EndpointHandlerFunc (RendersResponses.instanceNameOf self)
               endpointName endpointMethod endpointRenderMethod in
    let cb := ReadyCallback endpointName endpointRenderMethod req res next in
    (IService.isValid service = Some false ->
       exists serviceName,
         IService.getIName service = Some serviceName /\
         RendersResponses.applyHandler env service h req res next w =
         (Ret (VBool false),
          World (calls w ++
                 [EvNext next
                    (VObj [("message",
                            VStr (fmt "Service {0} invalid, unable to handle request to endpoint {1}"
                                      [serviceName; endpointName]));
                           ("code", VStr "ERR_SERVICE_INVALID")])])
                (logs (snd (RendersResponses.applyHandler env service h
                                                          req res next w))))) /\
    (IService.isValid service <> Some false ->
       forall id, endpointMethod = VFun (Extern id) ->
         RendersResponses.applyHandler env service h req res next w =
         (Ret (returns env endpointMethod [req]),
          World (calls w ++ [EvProcess endpointMethod req cb])
                (logs (snd (RendersResponses.applyHandler env service h
                                                          req res next w))))) /\
    (forall (data err : value) (w' : world),
       RendersResponses.isValid self = Some false ->
       RendersResponses.readyCallbackFunc env self cb data err w' =
       (Ret VUndef,
        World (calls w' ++
               [EvNext next
                  (VObj [("message",
                          VStr (fmt "Renderer {0} invalid, unable to handle request to endpoint {1}"
                                    [RendersResponses.getIName self; endpointName]));
                         ("code", VStr "ERR_RENDERER_INVALID")])])
              (logs w'))).
Proof.
  intros env T host self service endpointName endpointMethod
    endpointRenderMethod req res next w Hadh h cb.
  apply adheres_required in Hadh as ([serviceName Hname] & _ & _).
  split; [| split].
  - intros Hv. exists serviceName. split; [assumption |].
    unfold h, RendersResponses.applyHandler, RendersResponses.handlerFunc.
    rewrite Hv, Hname. reflexivity.
  - intros Hv id ->.
    unfold h, RendersResponses.applyHandler, RendersResponses.handlerFunc.
    destruct (IService.isValid service) as [[|] |]; try congruence;
      reflexivity.
  - intros data err w' Hv.
    unfold RendersResponses.readyCallbackFunc. rewrite Hv. reflexivity.
Qed.

(** The three branches on sample objects: an invalid service, a valid
    one, and a callback firing on an invalid renderer. *)
Lemma composite_handler_validity_checks_witness :
  calls (snd (RendersResponses.applyHandler Scenario.env0
                (serviceInterface Scenario.users)
                (EndpointHandlerFunc "json" "list" (VFun (Extern "listUsers"))
                                     (VFun RenderJSON))
                Scenario.req0 Scenario.res0 Scenario.next0 empty_world)) =
  [EvNext Scenario.next0
     (VObj [("message",
             VStr "Service users invalid, unable to handle request to endpoint list");
            ("code", VStr "ERR_SERVICE_INVALID")])] /\
  calls (snd (RendersResponses.applyHandler Scenario.env0
                (serviceInterface (Service.set_valid true Scenario.users))
                (EndpointHandlerFunc "json" "list" (VFun (Extern "listUsers"))
                                     (VFun RenderJSON))
                Scenario.req0 Scenario.res0 Scenario.next0 empty_world)) =
  [EvProcess (VFun (Extern "listUsers")) Scenario.req0
     (ReadyCallback "list" (VFun RenderJSON) Scenario.req0 Scenario.res0
                    Scenario.next0)] /\
  calls (snd (RendersResponses.readyCallbackFunc Scenario.env0
                Scenario.brokenRenderer
                (ReadyCallback "list" (VFun RenderJSON) Scenario.req0
                               Scenario.res0 Scenario.next0)
                (VNum 5) VUndef empty_world)) =
  [EvNext Scenario.next0
     (VObj [("message",
             VStr "Renderer json invalid, unable to handle request to endpoint list");
            ("code", VStr "ERR_RENDERER_INVALID")])].
Proof.
  split; [| split].
  - destruct (composite_handler_validity_checks Scenario.env0 _ _
                Scenario.renderer (serviceInterface Scenario.users) "list"
                (VFun (Extern "listUsers")) (VFun RenderJSON) Scenario.req0
                Scenario.res0 Scenario.next0 empty_world eq_refl)
      as [H _].
    destruct (H eq_refl) as (serviceName & Hname & E).
    injection Hname as <-.
    exact (f_equal (fun p => calls (snd p)) E).
  - destruct (composite_handler_validity_checks Scenario.env0 _ _
                Scenario.renderer
                (serviceInterface (Service.set_valid true Scenario.users))
                "list" (VFun (Extern "listUsers")) (VFun RenderJSON)
                Scenario.req0 Scenario.res0 Scenario.next0 empty_world eq_refl)
      as [_ [H _]].
    exact (f_equal (fun p => calls (snd p))
             (H ltac:(discriminate) "listUsers" eq_refl)).
  - destruct (composite_handler_validity_checks Scenario.env0 _ _
                Scenario.brokenRenderer (serviceInterface Scenario.users)
                "list" (VFun (Extern "listUsers")) (VFun RenderJSON)
                Scenario.req0 Scenario.res0 Scenario.next0 empty_world eq_refl)
      as [_ [_ H]].
    exact (f_equal (fun p => calls (snd p))
             (H (VNum 5) VUndef empty_world eq_refl)).
Defined.

(** C10: when the completion callback of a composite handler fires on a
    valid renderer, the render method is called with exactly the five
    arguments (req, res, next, data, err); and on a [JSONRenderer], whose
    render method is [_renderJSON], the callback never calls [status] on
    the response channel. *)
Theorem composite_handler_render_arguments :
  forall (env : environment) (T : Type) (host : RendersResponses.Host T)
         (self : T) (renderer : JSONRenderer.t) (endpointName : string)
         (endpointRenderMethod req res next data err : value) (w : world),
    let cb := ReadyCallback endpointName endpointRenderMethod req res next in
    let jsonCb :=
      ReadyCallback endpointName
        (fst (RendersResponses.getRenderMethodForEndpoint renderer endpointName))
        req res next in
    (RendersResponses.isValid self <> Some false ->
     forall id, endpointRenderMethod = VFun (Extern id) ->
       RendersResponses.readyCallbackFunc env self cb data err w =
       (Ret VUndef,
        World (calls w ++ [EvCall endpointRenderMethod [req; res; next; data; err]])
              (logs w))) /\
    (exists evs,
       calls (snd (RendersResponses.readyCallbackFunc env renderer jsonCb
                                                      data err w)) =
       (calls w ++ evs)%list /\
       forallb (fun e => negb (isStatusCall e)) evs = true).
Proof.
  intros env T host self renderer endpointName endpointRenderMethod
    req res next data err w cb jsonCb.
  split.
  - intros Hv id ->. unfold RendersResponses.readyCallbackFunc.
    destruct (RendersResponses.isValid self) as [[|] |]; try congruence;
      reflexivity.
  - unfold RendersResponses.readyCallbackFunc. simpl.
    destruct (JSONRenderer.isValid renderer); simpl.
    + unfold renderJSON_body, arg; simpl.
      destruct (_def err), (_obj data); run; eexists;
        (split; [reflexivity | reflexivity]).
    + run. eexists. split; reflexivity.
Qed.

(** A render method of the application gets the five arguments; the JSON
    renderer answers with [json] alone. *)
Lemma composite_handler_render_arguments_witness :
  RendersResponses.readyCallbackFunc Scenario.env0 Scenario.renderer
    (ReadyCallback "list" (VFun (Extern "renderList")) Scenario.req0
                   Scenario.res0 Scenario.next0)
    (VNum 5) VUndef empty_world =
  (Ret VUndef,
   World [EvCall (VFun (Extern "renderList"))
            [Scenario.req0; Scenario.res0; Scenario.next0; VNum 5; VUndef]]
         []).
Proof.
  destruct (composite_handler_render_arguments Scenario.env0 _ _
              Scenario.renderer Scenario.renderer
              "list" (VFun (Extern "renderList")) Scenario.req0 Scenario.res0
              Scenario.next0 (VNum 5) VUndef empty_world) as [H _].
  apply (H ltac:(discriminate) "renderList" eq_refl).
Defined.

(** C3, as the code has it: the errors the composite handler, its
    completion callback and the validity wrapper make themselves carry the
    codes [ERR_SERVICE_INVALID], [ERR_RENDERER_INVALID] and
    [ERR_SERVER_APP_CHUNK_INVALID]; the one other value passed to [next] is
    the [err] of the processing method, which [_renderJSON] forwards as it
    is. *)
Theorem next_error_codes :
  forall (env : environment) (T : Type) (host : RendersResponses.Host T)
         (self : T) (service : IService.t) (chunk : ServerAppChunk.t)
         (endpointName : string)
         (endpointMethod endpointRenderMethod handlerFunc : value)
         (req res next data err : value) (w : world),
    (exists evs,
       calls (snd (RendersResponses.handlerFunc env service endpointName
                     endpointMethod endpointRenderMethod req res next w)) =
       (calls w ++ evs)%list /\
       forall e, In e (nextErrors evs) ->
                 prop e "code" = VStr "ERR_SERVICE_INVALID") /\
    (exists evs,
       calls (snd (RendersResponses.readyCallbackFunc env self
                     (ReadyCallback endpointName endpointRenderMethod req res next)
                     data err w)) =
       (calls w ++ evs)%list /\
       forall e, In e (nextErrors evs) ->
                 prop e "code" = VStr "ERR_RENDERER_INVALID" \/
                 (e = err /\ endpointRenderMethod = VFun RenderJSON)) /\
    (exists evs,
       calls (snd (ServerAppChunk.validatedHandlerFunc env chunk endpointName
                     handlerFunc req res next w)) =
       (calls w ++ evs)%list /\
       forall e, In e (nextErrors evs) ->
                 prop e "code" = VStr "ERR_SERVER_APP_CHUNK_INVALID") /\
    (forall code, In code errorCodes ->
                  knownCode (VObj [("message", VStr ""); ("code", VStr code)]) = true).
Proof.
  intros env T host self service chunk endpointName endpointMethod
    endpointRenderMethod handlerFunc req res next data err w.
  split; [| split; [| split]].
  - unfold RendersResponses.handlerFunc.
    destruct (IService.isValid service) as [[|] |]; run.
    2: destruct (IService.getIName service); run.
    all: unfold callProcessing;
      try (destruct endpointMethod as [| | | | | | | [id |]]); run;
      eexists; (split; [try reflexivity; now rewrite app_nil_r |]);
      simpl; intros e He; repeat (destruct He as [<- | He]); try easy.
  - unfold RendersResponses.readyCallbackFunc. simpl.
    destruct (RendersResponses.isValid self) as [[|] |]; run.
    2: { eexists. split; [reflexivity |]. simpl. intros e [<- | []]. now left. }
    all: unfold call, renderJSON_body, arg;
      destruct endpointRenderMethod as [| | | | | | | [id |]]; run;
      try destruct (_def err); try destruct (_obj data); run;
      eexists; (split; [try reflexivity; now rewrite app_nil_r |]);
      simpl; intros e He; repeat (destruct He as [<- | He]); try easy;
      right; now split.
  - unfold ServerAppChunk.validatedHandlerFunc, call, renderJSON_body, arg.
    destruct (ServerAppChunk.isValid chunk);
      destruct handlerFunc as [| | | | | | | [id |]]; run;
      eexists;
      (split; [first [ reflexivity
                     | symmetry; apply app_nil_r
                     | rewrite <- app_assoc; reflexivity ] |]);
      simpl; intros e He; repeat (destruct He as [<- | He]); try easy.
  - intros code Hin. unfold knownCode. simpl.
    repeat (destruct Hin as [<- | Hin]); try reflexivity. destruct Hin.
Qed.

(** C3 as stated fails: the completion callback of a composite handler on
    a [JSONRenderer] passes the processing method's own error to [next],
    and its code is none of the three. *)
Lemma next_error_codes_counterexample :
  nextErrors
    (calls (snd (RendersResponses.readyCallbackFunc Scenario.env0
                   Scenario.renderer
                   (ReadyCallback "list" (VFun RenderJSON) Scenario.req0
                                  Scenario.res0 Scenario.next0)
                   VUndef Scenario.notFound empty_world))) =
  [Scenario.notFound] /\
  prop Scenario.notFound "code" = VStr "ERR_NOT_FOUND" /\
  knownCode Scenario.notFound = false.
Proof. repeat split. Qed.

(** ** RendersResponses: registering a handler *)

Lemma registerEndpointHandler_run {T : Type} {host : RendersResponses.Host T}
    (self : T) (endpointName : string) (endpointDef servicePathRoot : value)
    (h : handler) (w : world) :
  let server := fst (RendersResponses.getHTTPServer self) in
  let path := _joinPaths [servicePathRoot; prop endpointDef "URLSubpath"] in
  RendersResponses._llRegisterEndpointHandler self endpointName endpointDef
                                              servicePathRoot h w =
  if _hasMethod server (resolvedHTTPMethod endpointDef) then
    (Ret path,
     World (calls w ++ [EvRoute server (resolvedHTTPMethod endpointDef) path h])
           (logs w ++ snd (RendersResponses.getHTTPServer self)))
  else
    (Ret VNull,
     World (calls w)
           ((logs w ++ snd (RendersResponses.getHTTPServer self)) ++
            [(Error, "Endpoint {0} : HTTP method [{0}] not known by server, unable to register endpoint handler")])).
Proof.
  unfold RendersResponses._llRegisterEndpointHandler, resolvedHTTPMethod.
  destruct (js_or (prop endpointDef "HTTPMethod") (VStr "get")); run;
    try match goal with
        | |- context [_func ?v] => destruct (_func v)
        end; reflexivity.
Qed.

Lemma joinPaths_def (parts : list value) : _def (_joinPaths parts) = true.
Proof. reflexivity. Qed.

Lemma toLowerCase_nonempty (s : string) : s <> "" -> toLowerCase s <> "".
Proof. destruct s; [congruence | discriminate]. Qed.

(** C9, as the code has it: the verb an endpoint is registered under is
    its [HTTPMethod] in lower case when that is a non-empty string, and
    ["get"] when the definition has no [HTTPMethod].  When the server of
    [getHTTPServer()] has no method of that name the registration returns
    [null] and makes no call; otherwise it calls that method once, with
    the join of the root path and [URLSubpath] and with the handler, and
    returns the joined path. *)
Theorem register_endpoint_verb :
  forall (T : Type) (host : RendersResponses.Host T) (self : T)
         (endpointName : string) (endpointDef servicePathRoot : value)
         (h : handler) (w : world) (verb : string),
    (prop endpointDef "HTTPMethod" = VUndef /\ verb = "get") \/
    (exists s, prop endpointDef "HTTPMethod" = VStr s /\ s <> "" /\
               verb = toLowerCase s) ->
    let server := fst (RendersResponses.getHTTPServer self) in
    let path := _joinPaths [servicePathRoot; prop endpointDef "URLSubpath"] in
    let result := RendersResponses._llRegisterEndpointHandler
                    self endpointName endpointDef servicePathRoot h w in
    resolvedHTTPMethod endpointDef = VStr verb /\
    (_hasMethod server (VStr verb) = false ->
       fst result = Ret VNull /\ calls (snd result) = calls w) /\
    (_hasMethod server (VStr verb) = true ->
       fst result = Ret path /\
       calls (snd result) = (calls w ++ [EvRoute server (VStr verb) path h])%list).
Proof.
  intros T host self endpointName endpointDef servicePathRoot h w verb Hverb
    server path result.
  assert (E : resolvedHTTPMethod endpointDef = VStr verb).
  { unfold resolvedHTTPMethod, js_or.
    destruct Hverb as [[-> ->] | (s & -> & Hs & ->)]; [reflexivity |].
    simpl. destruct (String.eqb_spec s ""); [contradiction | reflexivity]. }
  split; [exact E |].
  subst result. rewrite registerEndpointHandler_run. rewrite E.
  fold server. fold path.
  split; intros ->; split; reflexivity.
Qed.

(** ["POST"] is registered through [server.post], a missing [HTTPMethod]
    through [server.get]. *)
Lemma register_endpoint_verb_witness :
  (let result :=
     RendersResponses._llRegisterEndpointHandler Scenario.renderer "add"
       (VObj [("HTTPMethod", VStr "POST"); ("URLSubpath", VStr "/users")])
       (VStr "/api/") (ValidatedHandlerFunc "add" (VFun (Extern "addUser")))
       empty_world in
   fst result = Ret (VStr "/api/users") /\
   calls (snd result) =
   [EvRoute Scenario.server0 (VStr "post") (VStr "/api/users")
      (ValidatedHandlerFunc "add" (VFun (Extern "addUser")))]) /\
  calls (snd (RendersResponses._llRegisterEndpointHandler Scenario.renderer
                "home" (VObj [("URLSubpath", VStr "/home")]) (VStr "/")
                (ValidatedHandlerFunc "home" (VFun (Extern "homeView")))
                empty_world)) =
  [EvRoute Scenario.server0 (VStr "get") (VStr "/home")
     (ValidatedHandlerFunc "home" (VFun (Extern "homeView")))].
Proof.
  split.
  - destruct (register_endpoint_verb _ _ Scenario.renderer "add"
                (VObj [("HTTPMethod", VStr "POST"); ("URLSubpath", VStr "/users")])
                (VStr "/api/")
                (ValidatedHandlerFunc "add" (VFun (Extern "addUser")))
                empty_world "post")
      as (_ & _ & H).
    + right. exists "POST". repeat split. discriminate.
    + exact (H eq_refl).
  - destruct (register_endpoint_verb _ _ Scenario.renderer "home"
                (VObj [("URLSubpath", VStr "/home")]) (VStr "/")
                (ValidatedHandlerFunc "home" (VFun (Extern "homeView")))
                empty_world "get")
      as (_ & _ & H).
    + left. split; reflexivity.
    + exact (proj2 (H eq_refl)).
Defined.

(** C9 as stated fails on an empty [HTTPMethod]: it is a string, and no
    method of the server is named by it in lower case, yet the handler is
    registered, through [server.get]. *)
Lemma register_endpoint_verb_counterexample :
  let endpointDef := VObj [("HTTPMethod", VStr ""); ("URLSubpath", VStr "/home")] in
  let h := ValidatedHandlerFunc "home" (VFun (Extern "homeView")) in
  _string (prop endpointDef "HTTPMethod") = true /\
  _hasMethod Scenario.server0 (VStr (toLowerCase "")) = false /\
  RendersResponses._llRegisterEndpointHandler Scenario.renderer "home"
    endpointDef (VStr "/") h empty_world =
  (Ret (VStr "/home"),
   World [EvRoute Scenario.server0 (VStr "get") (VStr "/home") h] []).
Proof. repeat split. Qed.

(** ** ServerAppChunk *)

Lemma registerEndpoints_spec (self : ServerAppChunk.t) (names : list string) :
  forall (n : nat) (w : world),
  exists (evs : list event) (l : list logentry),
    ServerAppChunk.registerEndpoints self names n w =
    (Ret (n + length evs)%nat, World (calls w ++ evs) (logs w ++ l)) /\
    Forall (wrapsMethodOf self) evs.
Proof.
  induction names as [| name names IH]; intros n w; simpl.
  - exists [], []. run. rewrite !app_nil_r, world_eta, Nat.add_0_r. now split.
  - destruct (_obj (Service.getEndpointDefFor (ServerAppChunk.super self) name));
      simpl.
    2: { run. destruct (IH n (World (calls w) (logs w ++ [(Error, "Endpoint {0} : no endpoint definition available, unable to register endpoint handler")])))
           as (evs & l & E & F).
         rewrite E. simpl. exists evs. eexists. rewrite <- app_assoc.
         now split. }
    destruct (_func (Service.getMethodForEndpoint (ServerAppChunk.super self) name))
      eqn:Ef; simpl.
    2: { run. destruct (IH n (World (calls w) (logs w ++ [(Error, "Endpoint {0} : no endpoint handler available, unable to register endpoint handler")])))
           as (evs & l & E & F).
         rewrite E. simpl. exists evs. eexists. rewrite <- app_assoc.
         now split. }
    unfold bind at 1. rewrite registerEndpointHandler_run. simpl.
    destruct (_hasMethod _ _).
    + run.
      match goal with
      | |- context [ServerAppChunk.registerEndpoints self names ?n0 ?w0] =>
          destruct (IH n0 w0) as (evs & l & E & F); rewrite E
      end.
      simpl. eexists (_ :: evs). eexists. split.
      * rewrite <- !app_assoc. simpl.
        replace (n + 1 + length evs)%nat with (n + S (length evs))%nat by lia.
        reflexivity.
      * constructor; [| exact F].
        eexists. eexists. exists name. split; [reflexivity | exact Ef].
    + run.
      match goal with
      | |- context [ServerAppChunk.registerEndpoints self names ?n0 ?w0] =>
          destruct (IH n0 w0) as (evs & l & E & F); rewrite E
      end.
      simpl. exists evs. eexists. split; [| exact F].
      rewrite <- !app_assoc. reflexivity.
Qed.

(** Every call the constructor of a chunk makes registers a validity
    wrapper around a function of the endpoint method map. *)
Lemma ServerAppChunk_constructor_routes (chunkName : string) (config : value)
    (ov : ServerAppChunk.overrides) (w : world) :
  exists (self : ServerAppChunk.t) (evs : list event) (l : list logentry),
    ServerAppChunk.constructor chunkName config ov w =
    (Ret self, World (calls w ++ evs) (logs w ++ l)) /\
    Forall (wrapsMethodOf self) evs /\
    (_obj (_get config "server") = false ->
     ServerAppChunk.isValid self = false /\ evs = []).
Proof.
  unfold ServerAppChunk.constructor.
  destruct (Service_constructor_run chunkName config
              (ServerAppChunk.mapEndpointsToMethods ov) w) as (map & l0 & E).
  cbv zeta in E. unfold bind at 1. rewrite E. clear E.
  set (super := {| Service.base := _ |}).
  unfold ServerAppChunk.set_valid, Service.set_valid; simpl.
  destruct (_obj (_get config "server")) eqn:Es; run.
  2: { eexists. exists []. eexists. rewrite app_nil_r, <- !app_assoc.
       split; [reflexivity |]. split; [constructor |]. intros _. now split. }
  unfold ServerAppChunk._registerEndpointHandlers, Service.getEndpointNames.
  simpl.
  assert (Hrm : forall (this : ServerAppChunk.t) w0,
            exists v l1,
              ServerAppChunk._mapEndpointsToRenderMethods
                (ServerAppChunk.mapEndpointsToRenderMethods ov) this w0 =
              (Ret v, World (calls w0) (logs w0 ++ l1))).
  { intros this w0. unfold ServerAppChunk._mapEndpointsToRenderMethods.
    destruct (ServerAppChunk.mapEndpointsToRenderMethods ov); run.
    - eexists. exists []. now rewrite app_nil_r, world_eta.
    - eexists. eexists. reflexivity. }
  destruct (_obj (_get config "endpointTable")); run.
  2: { match goal with
       | |- context [ServerAppChunk._mapEndpointsToRenderMethods _ ?t ?w0] =>
           destruct (Hrm t w0) as (v & l1 & E); rewrite E
       end.
       simpl. eexists. exists []. eexists. rewrite app_nil_r, <- !app_assoc.
       split; [reflexivity |]. split; [constructor | discriminate]. }
  destruct (_empty (getOwnPropertyNames (_get config "endpointTable"))); run.
  { match goal with
    | |- context [ServerAppChunk._mapEndpointsToRenderMethods _ ?t ?w0] =>
        destruct (Hrm t w0) as (v & l1 & E); rewrite E
    end.
    simpl. eexists. exists []. eexists. rewrite app_nil_r, <- !app_assoc.
    split; [reflexivity |]. split; [constructor | discriminate]. }
  match goal with
  | |- context [ServerAppChunk.registerEndpoints ?t ?ns ?n0 ?w0] =>
      destruct (registerEndpoints_spec t ns n0 w0) as (evs & l1 & E & F);
      rewrite E
  end.
  simpl. destruct (length evs <? 1)%nat; run.
  all: match goal with
       | |- context [ServerAppChunk._mapEndpointsToRenderMethods _ ?t ?w0] =>
           destruct (Hrm t w0) as (v & l2 & E2); rewrite E2
       end.
  all: simpl; eexists; exists evs; eexists; rewrite <- !app_assoc;
    (split; [reflexivity |]); (split; [exact F | discriminate]).
Qed.

(** C2: a request to a validity wrapper while the chunk's [isValid()]
    returns false: the wrapper calls [next] with the
    [ERR_SERVER_APP_CHUNK_INVALID] error and then goes on to call the raw
    handler with (req, res, next); for a handler of the application both
    calls are made, in this order. *)
Theorem validated_handler_falls_through :
  forall (env : environment) (self : ServerAppChunk.t) (endpointName : string)
         (handlerFunc req res next : value) (w : world),
    ServerAppChunk.isValid self = false ->
    let h := ValidatedHandlerFunc endpointName handlerFunc in
    let err := chunkInvalidError self endpointName in
    prop err "code" = VStr "ERR_SERVER_APP_CHUNK_INVALID" /\
    ServerAppChunk.applyHandler env self h req res next w =
    call env handlerFunc [req; res; next]
         (World (calls w ++ [EvNext next err]) (logs w)) /\
    (forall id, handlerFunc = VFun (Extern id) ->
       ServerAppChunk.applyHandler env self h req res next w =
       (Ret (returns env handlerFunc [req; res; next]),
        World (calls w ++ [EvNext next err;
                           EvCall handlerFunc [req; res; next]])
              (logs w))).
Proof.
  intros env self endpointName handlerFunc req res next w Hv h err.
  assert (E : ServerAppChunk.applyHandler env self h req res next w =
              call env handlerFunc [req; res; next]
                   (World (calls w ++ [EvNext next err]) (logs w))).
  { unfold h, ServerAppChunk.applyHandler, ServerAppChunk.validatedHandlerFunc.
    rewrite Hv. reflexivity. }
  split; [reflexivity |]. split; [exact E |].
  intros id ->. rewrite E. unfold call. run. now rewrite <- app_assoc.
Qed.

(** A request for the home view of an invalid chunk: [next] gets the
    error, and the view is called all the same. *)
Lemma validated_handler_falls_through_witness :
  ServerAppChunk.applyHandler Scenario.env0 Scenario.chunk
    (ValidatedHandlerFunc "home" (VFun (Extern "homeView")))
    Scenario.req0 Scenario.res0 Scenario.next0 empty_world =
  (Ret VUndef,
   World [EvNext Scenario.next0
            (VObj [("message",
                    VStr "Endpoint home : Server app chunk home is not valid, unable to handle request");
                   ("code", VStr "ERR_SERVER_APP_CHUNK_INVALID")]);
          EvCall (VFun (Extern "homeView"))
                 [Scenario.req0; Scenario.res0; Scenario.next0]]
         []).
Proof.
  destruct (validated_handler_falls_through Scenario.env0 Scenario.chunk
              "home" (VFun (Extern "homeView")) Scenario.req0 Scenario.res0
              Scenario.next0 empty_world eq_refl) as (_ & _ & H).
  exact (H "homeView" eq_refl).
Defined.

(** C1 fails on the code: the endpoint table declares "home" and "about",
    the subclass maps "home" only, and the [Service] constructor marks the
    instance invalid; the [ServerAppChunk] constructor then sets the flag
    to true again, registers the handler of "home" on the server, and
    leaves a chunk whose [isValid()] returns true. *)
Theorem ServerAppChunk_constructor_resets_validity :
  (exists (s : Service.t) (w : world),
     Service.constructor "app" Scenario.views
       (ServerAppChunk.mapEndpointsToMethods Scenario.homeOnly) empty_world =
     (Ret s, w) /\
     _func (Service.getMethodForEndpoint s "about") = false /\
     Service.isValid s = false) /\
  (exists (self : ServerAppChunk.t) (w : world),
     ServerAppChunk.constructor "app" Scenario.views Scenario.homeOnly
                                empty_world = (Ret self, w) /\
     ServerAppChunk.isValid self = true /\
     calls w = [EvRoute Scenario.server0 (VStr "get") (VStr "/home")
                  (ValidatedHandlerFunc "home" (VFun (Extern "homeView")))]).
Proof.
  split; eexists; eexists; (split; [lazy; reflexivity |]); split; reflexivity.
Qed.

(** ** RendersResponses: setting up the endpoints of a service *)

Section Setup.

Context {T : Type} {host : RendersResponses.Host T}.
Variables (self : T) (service : IService.t) (servicePathRoot : value).

Let root : value := js_or servicePathRoot (VStr "/").

Lemma framed_registerEndpointHandler (endpointName : string)
    (endpointDef : value) (h : handler) :
  framed (RendersResponses._llRegisterEndpointHandler self endpointName
            endpointDef root h).
Proof.
  intros w. rewrite !registerEndpointHandler_run.
  destruct (_hasMethod _ _); simpl; rewrite <- ?app_assoc, ?app_nil_r;
    reflexivity.
Qed.

Lemma framed_createEndpointHandlerFunc (endpointName : string) :
  framed (RendersResponses._llCreateEndpointHandlerFunc self service
            endpointName).
Proof.
  unfold RendersResponses._llCreateEndpointHandlerFunc.
  apply framed_bind; [apply framed_callMethod |]. intros getMethod.
  destruct (_func (getMethod endpointName)); simpl; [| framed].
  apply framed_bind; [apply framed_liftL |]. intros r.
  destruct (_func r); simpl; framed.
Qed.

Lemma framed_setupRenderingFor (endpointName : string) :
  framed (RendersResponses._llSetupRenderingFor self service endpointName root).
Proof.
  unfold RendersResponses._llSetupRenderingFor.
  apply framed_bind; [apply framed_createEndpointHandlerFunc |].
  intros [h |]; [| framed].
  apply framed_bind; [apply framed_callMethod |]. intros getDef.
  destruct (_obj (getDef endpointName)); simpl; [| framed].
  apply framed_registerEndpointHandler.
Qed.

(** One endpoint, from any world: what it does on its own, appended. *)
Lemma setupRenderingFor_alone (endpointName : string) (w : world) :
  RendersResponses._llSetupRenderingFor self service endpointName root w =
  (fst (setupAlone self service servicePathRoot endpointName),
   World (calls w ++ registrations self service servicePathRoot endpointName)
         (logs w ++ logs (snd (setupAlone self service servicePathRoot
                                          endpointName)))).
Proof. apply framed_setupRenderingFor. Qed.

(** An endpoint either registers one handler and returns a path, or
    registers nothing and returns [null] or throws. *)
Lemma setupAlone_cases (endpointName : string) :
  (registered self service servicePathRoot endpointName = true /\
   exists server verb path h,
     registrations self service servicePathRoot endpointName =
     [EvRoute server verb path h]) \/
  (registered self service servicePathRoot endpointName = false /\
   registrations self service servicePathRoot endpointName = [] /\
   (fst (setupAlone self service servicePathRoot endpointName) = Ret VNull \/
    exists e, fst (setupAlone self service servicePathRoot endpointName)
              = Throw e)).
Proof.
  unfold registered, registrations, setupAlone,
    RendersResponses._llSetupRenderingFor,
    RendersResponses._llCreateEndpointHandlerFunc.
  fold root.
  destruct (IService.getMethodForEndpoint service) as [getMethod |]; run.
  2: { right. repeat split. right. eexists. reflexivity. }
  destruct (_func (getMethod endpointName)); run.
  2: { right. repeat split. now left. }
  destruct (_func (fst (RendersResponses.getRenderMethodForEndpoint
                          self endpointName))); run.
  2: { right. repeat split. now left. }
  destruct (IService.getEndpointDefFor service) as [getDef |]; run.
  2: { right. repeat split. right. eexists. reflexivity. }
  destruct (_obj (getDef endpointName)); run.
  2: { right. repeat split. now left. }
  rewrite registerEndpointHandler_run.
  destruct (_hasMethod _ _); simpl.
  - left. split; [reflexivity |]. repeat eexists.
  - right. repeat split. now left.
Qed.

(** The handler an endpoint registers is the composite handler of its
    processing method and its render method, both functions. *)
Lemma registrations_composite (endpointName : string) (e : event) :
  In e (registrations self service servicePathRoot endpointName) ->
  exists server verb path getMethod,
    IService.getMethodForEndpoint service = Some getMethod /\
    _func (getMethod endpointName) = true /\
    _func (fst (RendersResponses.getRenderMethodForEndpoint self endpointName))
    = true /\
    e = EvRoute server verb path
          (EndpointHandlerFunc (RendersResponses.instanceNameOf self)
             endpointName (getMethod endpointName)
             (fst (RendersResponses.getRenderMethodForEndpoint self
                                                               endpointName))).
Proof.
  unfold registrations, setupAlone, RendersResponses._llSetupRenderingFor,
    RendersResponses._llCreateEndpointHandlerFunc.
  fold root.
  destruct (IService.getMethodForEndpoint service) as [getMethod |]; run;
    [| intros []].
  destruct (_func (getMethod endpointName)) eqn:Em; run; [| intros []].
  destruct (_func (fst (RendersResponses.getRenderMethodForEndpoint
                          self endpointName))) eqn:Er; run; [| intros []].
  destruct (IService.getEndpointDefFor service) as [getDef |]; run;
    [| intros []].
  destruct (_obj (getDef endpointName)); run; [| intros []].
  rewrite registerEndpointHandler_run.
  destruct (_hasMethod _ _); simpl; [| intros []].
  intros [<- | []]. repeat eexists; assumption.
Qed.

Lemma setupAlone_Ret (getMethod getDef : string -> value)
    (endpointName : string) :
  IService.getMethodForEndpoint service = Some getMethod ->
  IService.getEndpointDefFor service = Some getDef ->
  exists URLPath,
    fst (setupAlone self service servicePathRoot endpointName) = Ret URLPath.
Proof.
  intros Hm Hd.
  unfold setupAlone, RendersResponses._llSetupRenderingFor,
    RendersResponses._llCreateEndpointHandlerFunc.
  rewrite Hm, Hd. run.
  destruct (_func (getMethod endpointName)); run; [| eexists; reflexivity].
  destruct (_func _); run; [| eexists; reflexivity].
  destruct (_obj _); run; [| eexists; reflexivity].
  rewrite registerEndpointHandler_run.
  destruct (_hasMethod _ _); eexists; reflexivity.
Qed.

Lemma setupAlone_Throw (endpointName : string) :
  IService.getMethodForEndpoint service = None ->
  exists e l,
    setupAlone self service servicePathRoot endpointName =
    (Throw e, World [] l).
Proof.
  intros Hm.
  unfold setupAlone, RendersResponses._llSetupRenderingFor,
    RendersResponses._llCreateEndpointHandlerFunc.
  rewrite Hm. run. eexists. eexists. reflexivity.
Qed.

(** The loop over a service whose methods are all there: every endpoint
    is set up, and the count is the number of those that registered. *)
Lemma setupEndpoints_all (getMethod getDef : string -> value)
    (names : list string) :
  IService.getMethodForEndpoint service = Some getMethod ->
  IService.getEndpointDefFor service = Some getDef ->
  forall (n : nat) (w : world),
  exists l,
    RendersResponses.setupEndpoints self service root names n w =
    (Ret (n + length (filter (registered self service servicePathRoot) names))%nat,
     World (calls w ++ flat_map (registrations self service servicePathRoot) names)
           (logs w ++ l)).
Proof.
  intros Hm Hd.
  induction names as [| name names IH]; intros n w; simpl.
  - exists []. run. now rewrite Nat.add_0_r, !app_nil_r, world_eta.
  - unfold bind at 1. rewrite setupRenderingFor_alone.
    destruct (setupAlone_Ret getMethod getDef name Hm Hd) as [URLPath E].
    unfold registered at 1. rewrite E.
    destruct (_def URLPath); run.
    + match goal with
      | |- context [RendersResponses.setupEndpoints _ _ _ names ?n0 ?w0] =>
          destruct (IH n0 w0) as [l El]; rewrite El
      end.
      simpl. eexists. rewrite <- !app_assoc.
      replace (n + 1 + length (filter (registered self service servicePathRoot)
                                      names))%nat
        with (n + S (length (filter (registered self service servicePathRoot)
                                    names)))%nat by lia.
      reflexivity.
    + match goal with
      | |- context [RendersResponses.setupEndpoints _ _ _ names ?n0 ?w0] =>
          destruct (IH n0 w0) as [l El]; rewrite El
      end.
      simpl. eexists. rewrite <- !app_assoc. reflexivity.
Qed.

(** The loop over a service without [getMethodForEndpoint]: the first
    endpoint throws. *)
Lemma setupEndpoints_throws (name : string) (names : list string) :
  IService.getMethodForEndpoint service = None ->
  forall (n : nat) (w : world),
  exists e l,
    RendersResponses.setupEndpoints self service root (name :: names) n w =
    (Throw e, World (calls w) (logs w ++ l)).
Proof.
  intros Hm n w. simpl. unfold bind at 1. rewrite setupRenderingFor_alone.
  unfold registrations.
  destruct (setupAlone_Throw name Hm) as (e & l & E). rewrite E. simpl.
  exists e, l. now rewrite app_nil_r.
Qed.

Lemma filter_nonempty {A} (f : A -> bool) (l : list A) :
  (1 <= length (filter f l))%nat <-> exists x, In x l /\ f x = true.
Proof.
  induction l as [| a l IH]; simpl.
  - split; [lia | intros (x & [] & _)].
  - destruct (f a) eqn:Ea; simpl.
    + split; [intros _; exists a; auto | lia].
    + rewrite IH. split.
      * intros (x & Hx & Hf). exists x. auto.
      * intros (x & [-> | Hx] & Hf); [congruence | now exists x].
Qed.

End Setup.

Lemma setupEndpoints_throws_nonempty {T : Type} {host : RendersResponses.Host T}
    (self : T) (service : IService.t) (servicePathRoot : value)
    (names : list string) :
  names <> [] ->
  IService.getMethodForEndpoint service = None ->
  forall (n : nat) (w : world),
  exists e l,
    RendersResponses.setupEndpoints self service
      (js_or servicePathRoot (VStr "/")) names n w =
    (Throw e, World (calls w) (logs w ++ l)).
Proof.
  intros Hne Hm. destruct names as [| name names]; [congruence |].
  now apply setupEndpoints_throws.
Qed.

(** [renderResponsesFor] once the capability check has passed. *)
Lemma renderResponsesFor_selection {T : Type} {host : RendersResponses.Host T}
    (self : T) (service : IService.t) (servicePathRoot : value)
    (endpoints : option (list string)) (w : world) :
  _interfaceAdheres service RendersResponses.REQUIRED_SERVICE_IF = true ->
  RendersResponses.renderResponsesFor self service servicePathRoot endpoints w =
  match selection service endpoints with
  | None =>
      (log Error "No valid list of endpoint names given by service, unable to setup response rendering for endpoints of {0}" ;;
       ret false)%js w
  | Some names =>
      if _empty names then
        (log Warn "Service {0} has no endpoints to setup response rendering for, nothing to do" ;;
         ret true)%js w
      else
        (numSetupSuccess <-
           RendersResponses.setupEndpoints self service
             (js_or servicePathRoot (VStr "/")) names 0 ;;
         if (numSetupSuccess <? 1)%nat then
           log Error "Unable to setup response rendering for any endpoints of service {0}" ;;
           ret false
         else ret true)%js
          (World (calls w)
             ((logs w ++ [(Info, "")]) ++
              [(Info, "Setting up response rendering for {0} service endpoints, with path root {1}")]))
  end.
Proof.
  intros Hadh. pose proof Hadh as Hadh'.
  apply adheres_required in Hadh as ([serviceName Hname] & [r Hnames] & _).
  unfold RendersResponses.renderResponsesFor, selection.
  rewrite Hadh', Hname, Hnames. simpl negb. cbv iota.
  destruct endpoints as [names |]; [| destruct r as [names |]]; run;
    try reflexivity; destruct (_empty names); reflexivity.
Qed.

(** C5: [renderResponsesFor] on a service that passes the capability
    check.  On an empty selection it returns true and registers nothing.
    On a non-empty selection the calls it makes are those of every
    selected endpoint's own setup, one after the other: an endpoint that
    fails registers nothing, and neither stops the endpoints after it nor
    undoes those before it; an endpoint that succeeds registers one
    handler; and the result is true exactly when some endpoint
    succeeded. *)
Theorem renderResponsesFor_best_effort :
  forall (T : Type) (host : RendersResponses.Host T) (self : T)
         (service : IService.t) (servicePathRoot : value)
         (endpoints : option (list string)) (w : world),
    _interfaceAdheres service RendersResponses.REQUIRED_SERVICE_IF = true ->
    let result := RendersResponses.renderResponsesFor self service
                    servicePathRoot endpoints w in
    (selection service endpoints = Some [] ->
       fst result = Ret true /\ calls (snd result) = calls w) /\
    (forall names,
       selection service endpoints = Some names -> names <> [] ->
       calls (snd result) =
       (calls w ++ flat_map (registrations self service servicePathRoot) names)%list /\
       (fst result = Ret true <->
        exists name, In name names /\
                     registered self service servicePathRoot name = true) /\
       (forall name,
          length (registrations self service servicePathRoot name) =
          if registered self service servicePathRoot name then 1%nat else 0%nat)).
Proof.
  intros T host self service servicePathRoot endpoints w Hadh result.
  subst result. rewrite (renderResponsesFor_selection _ _ _ _ _ Hadh).
  apply adheres_required in Hadh as (_ & _ & [getDef Hdef]).
  split.
  - intros ->. simpl. now split.
  - intros names -> Hne.
    assert (Hlen : forall name,
               length (registrations self service servicePathRoot name) =
               if registered self service servicePathRoot name
               then 1%nat else 0%nat).
    { intros name.
      destruct (setupAlone_cases self service servicePathRoot name)
        as [(-> & server & verb & path & h & ->) | (-> & -> & _)];
        reflexivity. }
    destruct (_empty names) eqn:Eempty.
    { destruct names; [congruence | discriminate]. }
    destruct (IService.getMethodForEndpoint service) as [getMethod |] eqn:Hm.
    + match goal with
      | |- context [bind _ _ ?w0] =>
          destruct (setupEndpoints_all self service servicePathRoot getMethod
                      getDef names Hm Hdef 0 w0) as [l E]
      end.
      unfold bind. rewrite E. cbv beta iota. rewrite !Nat.add_0_l.
      set (count := length (filter (registered self service servicePathRoot)
                                   names)).
      split; [| split; [| exact Hlen]].
      * destruct (count <? 1)%nat; reflexivity.
      * rewrite <- (filter_nonempty (registered self service servicePathRoot)).
        fold count.
        destruct (Nat.ltb_spec count 1); run; split;
          try discriminate; try lia; reflexivity.
    + match goal with
      | |- context [bind _ _ ?w0] =>
          destruct (setupEndpoints_throws_nonempty self service servicePathRoot
                      names Hne Hm 0 w0) as (e & l & E)
      end.
      unfold bind. rewrite E. cbv beta iota.
      assert (Hnone : forall n,
                 registered self service servicePathRoot n = false /\
                 registrations self service servicePathRoot n = []).
      { intros n. unfold registered, registrations.
        destruct (setupAlone_Throw self service servicePathRoot n Hm)
          as (e' & l' & ->). now split. }
      split; [| split; [| exact Hlen]].
      * simpl calls.
        replace (flat_map (registrations self service servicePathRoot) names)
          with (@nil event).
        { now rewrite app_nil_r. }
        clear -Hnone. induction names as [| a l IH]; simpl.
        -- reflexivity.
        -- now rewrite (proj2 (Hnone a)), <- IH.
      * split; [discriminate |].
        intros (n & _ & Hn). rewrite (proj1 (Hnone n)) in Hn. discriminate.
Qed.

(** Three endpoints, of which "remove" has no processing method: the two
    others are registered and the result is true. *)
Lemma renderResponsesFor_best_effort_witness :
  let result := RendersResponses.renderResponsesFor Scenario.renderer
                  (serviceInterface Scenario.users) (VStr "/api/") None
                  empty_world in
  fst result = Ret true /\
  registered Scenario.renderer (serviceInterface Scenario.users)
             (VStr "/api/") "remove" = false /\
  calls (snd result) =
  [EvRoute Scenario.server0 (VStr "get") (VStr "/api/users")
     (EndpointHandlerFunc "json" "list" (VFun (Extern "listUsers"))
                          (VFun RenderJSON));
   EvRoute Scenario.server0 (VStr "post") (VStr "/api/users")
     (EndpointHandlerFunc "json" "add" (VFun (Extern "addUser"))
                          (VFun RenderJSON))].
Proof.
  destruct (renderResponsesFor_best_effort _ _ Scenario.renderer
              (serviceInterface Scenario.users) (VStr "/api/") None
              empty_world eq_refl) as [_ H].
  destruct (H ["list"; "remove"; "add"] eq_refl ltac:(discriminate))
    as (Hcalls & Htrue & _).
  split; [| split].
  - apply Htrue. exists "list". split; [now left | reflexivity].
  - reflexivity.
  - exact Hcalls.
Defined.

(** * Further properties *)

(** ** RendersResponses: when an endpoint is registered *)

Lemma setup_expected {T : Type} {host : RendersResponses.Host T}
    (self : T) (service : IService.t) (servicePathRoot : value)
    (endpointName : string) :
  registered self service servicePathRoot endpointName =
  setupSucceeds self service endpointName /\
  registrations self service servicePathRoot endpointName =
  expectedRegistrations self service servicePathRoot endpointName.
Proof.
  unfold registered, registrations, setupAlone, expectedRegistrations,
    setupSucceeds, RendersResponses._llSetupRenderingFor,
    RendersResponses._llCreateEndpointHandlerFunc.
  destruct (IService.getMethodForEndpoint service) as [getMethod |]; run;
    [| now split].
  destruct (_func (getMethod endpointName)); run.
  2: { destruct (IService.getEndpointDefFor service); now split. }
  destruct (_func (fst (RendersResponses.getRenderMethodForEndpoint
                          self endpointName))); run.
  2: { destruct (IService.getEndpointDefFor service); now split. }
  destruct (IService.getEndpointDefFor service) as [getDef |]; run;
    [| now split].
  destruct (_obj (getDef endpointName)); run; [| now split].
  rewrite registerEndpointHandler_run.
  destruct (_hasMethod _ _); simpl; now split.
Qed.

(** X1: the setup of one endpoint by [_llSetupRenderingFor] returns a URL
    path exactly when the service has a processing method that is a
    function and a definition that is an object for it, the renderer has
    a render method that is a function, and its server has a method named
    after the resolved verb; it then makes one call, registering the
    composite handler under the joined path, and otherwise makes none.
    Neither the validity of the service nor that of the renderer plays a
    part. *)
Theorem endpoint_setup_conditions :
  forall (T : Type) (host : RendersResponses.Host T) (self : T)
         (service : IService.t) (servicePathRoot : value)
         (endpointName : string) (w : world),
    let run := RendersResponses._llSetupRenderingFor self service endpointName
                 (js_or servicePathRoot (VStr "/")) w in
    ((exists URLPath, fst run = Ret URLPath /\ _def URLPath = true) <->
     setupSucceeds self service endpointName = true) /\
    calls (snd run) =
    (calls w ++ expectedRegistrations self service servicePathRoot endpointName)%list.
Proof.
  intros T host self service servicePathRoot endpointName w run.
  subst run. rewrite setupRenderingFor_alone. simpl.
  destruct (setup_expected self service servicePathRoot endpointName)
    as [Hr Hc].
  rewrite <- Hr, Hc. split; [| reflexivity].
  unfold registered. split.
  - intros (URLPath & -> & Hd). exact Hd.
  - destruct (fst (setupAlone self service servicePathRoot endpointName))
      as [URLPath | e]; [| discriminate].
    intros Hd. now exists URLPath.
Qed.

(** [renderResponsesFor] on a service with all its methods. *)
Lemma renderResponsesFor_run {T : Type} {host : RendersResponses.Host T}
    (self : T) (service : IService.t) (servicePathRoot : value)
    (endpoints : option (list string)) (w : world)
    (names : list string) (getMethod : string -> value) :
  _interfaceAdheres service RendersResponses.REQUIRED_SERVICE_IF = true ->
  IService.getMethodForEndpoint service = Some getMethod ->
  selection service endpoints = Some names ->
  exists l,
    RendersResponses.renderResponsesFor self service servicePathRoot endpoints w =
    (Ret (_empty names || existsb (setupSucceeds self service) names),
     World (calls w ++ flat_map (expectedRegistrations self service servicePathRoot)
                                names)
           (logs w ++ l)).
Proof.
  intros Hadh Hm Hsel.
  rewrite (renderResponsesFor_selection _ _ _ _ _ Hadh), Hsel.
  apply adheres_required in Hadh as (_ & _ & [getDef Hdef]).
  destruct (_empty names) eqn:Eempty.
  - destruct names; [| discriminate]. run. eexists.
    now rewrite app_nil_r.
  - match goal with
    | |- context [bind _ _ ?w0] =>
        destruct (setupEndpoints_all self service servicePathRoot getMethod
                    getDef names Hm Hdef 0 w0) as [l E]
    end.
    unfold bind. rewrite E. cbv beta iota. rewrite Nat.add_0_l. simpl orb.
    assert (Hflat : flat_map (registrations self service servicePathRoot) names =
                    flat_map (expectedRegistrations self service servicePathRoot)
                             names).
    { apply flat_map_ext. intros a. apply setup_expected. }
    assert (Hfilter : filter (registered self service servicePathRoot) names =
                      filter (setupSucceeds self service) names).
    { apply filter_ext. intros a. apply setup_expected. }
    rewrite Hflat, Hfilter.
    assert (Hex : (length (filter (setupSucceeds self service) names) <? 1)%nat =
                  negb (existsb (setupSucceeds self service) names)).
    { clear. induction names as [| a l IH]; simpl; [reflexivity |].
      destruct (setupSucceeds self service a); simpl; [reflexivity | exact IH]. }
    rewrite Hex.
    destruct (existsb _ _); run; eexists; rewrite <- ?app_assoc; reflexivity.
Qed.

(** X2: for a service that passes the capability check and has a
    [getMethodForEndpoint], [renderResponsesFor] registers, in the order
    of the selected names and once for every occurrence of a name, exactly
    the endpoints that meet the conditions of their setup, and returns
    true when the selection is empty or one of them does. *)
Theorem renderResponsesFor_registers_in_order :
  forall (T : Type) (host : RendersResponses.Host T) (self : T)
         (service : IService.t) (servicePathRoot : value)
         (endpoints : option (list string)) (w : world)
         (names : list string) (getMethod : string -> value),
    _interfaceAdheres service RendersResponses.REQUIRED_SERVICE_IF = true ->
    IService.getMethodForEndpoint service = Some getMethod ->
    selection service endpoints = Some names ->
    let result := RendersResponses.renderResponsesFor self service
                    servicePathRoot endpoints w in
    fst result = Ret (_empty names || existsb (setupSucceeds self service) names) /\
    calls (snd result) =
    (calls w ++ flat_map (expectedRegistrations self service servicePathRoot)
                         names)%list.
Proof.
  intros T host self service servicePathRoot endpoints w names getMethod
    Hadh Hm Hsel result.
  destruct (renderResponsesFor_run self service servicePathRoot endpoints w
              names getMethod Hadh Hm Hsel) as [l E].
  subst result. rewrite E. now split.
Qed.

(** Asked for "add" twice and "remove" once, the renderer registers "add"
    twice. *)
Lemma renderResponsesFor_registers_in_order_witness :
  let result := RendersResponses.renderResponsesFor Scenario.renderer
                  (serviceInterface Scenario.users) VUndef
                  (Some ["add"; "remove"; "add"]) empty_world in
  fst result = Ret true /\
  calls (snd result) =
  [EvRoute Scenario.server0 (VStr "post") (VStr "/users")
     (EndpointHandlerFunc "json" "add" (VFun (Extern "addUser"))
                          (VFun RenderJSON));
   EvRoute Scenario.server0 (VStr "post") (VStr "/users")
     (EndpointHandlerFunc "json" "add" (VFun (Extern "addUser"))
                          (VFun RenderJSON))].
Proof.
  exact (renderResponsesFor_registers_in_order _ _ Scenario.renderer
           (serviceInterface Scenario.users) VUndef
           (Some ["add"; "remove"; "add"]) empty_world
           ["add"; "remove"; "add"] _ eq_refl eq_refl eq_refl).
Defined.

(** X3: when no array of endpoints is passed and the service's
    [getEndpointNames()] gives no list, [renderResponsesFor] returns false
    and registers nothing. *)
Theorem renderResponsesFor_without_names :
  forall (T : Type) (host : RendersResponses.Host T) (self : T)
         (service : IService.t) (servicePathRoot : value) (w : world),
    _interfaceAdheres service RendersResponses.REQUIRED_SERVICE_IF = true ->
    IService.getEndpointNames service = Some None ->
    let result := RendersResponses.renderResponsesFor self service
                    servicePathRoot None w in
    fst result = Ret false /\ calls (snd result) = calls w.
Proof.
  intros T host self service servicePathRoot w Hadh Hnames result.
  subst result. rewrite (renderResponsesFor_selection _ _ _ _ _ Hadh).
  unfold selection. rewrite Hnames. now split.
Qed.

(** A service without an endpoint table has no names to give. *)
Lemma renderResponsesFor_without_names_witness :
  let result := RendersResponses.renderResponsesFor Scenario.renderer
                  (serviceInterface Scenario.tableless) (VStr "/api") None
                  empty_world in
  fst result = Ret false /\ calls (snd result) = [].
Proof.
  exact (renderResponsesFor_without_names _ _ Scenario.renderer
           (serviceInterface Scenario.tableless) (VStr "/api") empty_world
           eq_refl eq_refl).
Defined.

Lemma setupEndpoints_withValidity {T : Type} {host : RendersResponses.Host T}
    (self : T) (service : IService.t) (v : option bool)
    (servicePathRoot : value) (names : list string) :
  forall n,
    RendersResponses.setupEndpoints self (withValidity v service)
                                    servicePathRoot names n =
    RendersResponses.setupEndpoints self service servicePathRoot names n.
Proof.
  induction names as [| name names IH]; intros n; simpl; [reflexivity |].
  change (RendersResponses._llSetupRenderingFor self (withValidity v service)
            name servicePathRoot)
    with (RendersResponses._llSetupRenderingFor self service name
            servicePathRoot).
  now rewrite !IH.
Qed.

(** X4: registration does not look at the validity of the service:
    whatever its [isValid()] returns, and whether it has one or not,
    [renderResponsesFor] returns the same result and makes the same
    calls. *)
Theorem renderResponsesFor_ignores_service_validity :
  forall (T : Type) (host : RendersResponses.Host T) (self : T)
         (service : IService.t) (v : option bool) (servicePathRoot : value)
         (endpoints : option (list string)) (w : world),
    RendersResponses.renderResponsesFor self (withValidity v service)
                                        servicePathRoot endpoints w =
    RendersResponses.renderResponsesFor self service servicePathRoot
                                        endpoints w.
Proof.
  intros T host self service v servicePathRoot endpoints w.
  unfold RendersResponses.renderResponsesFor.
  change (_interfaceAdheres (withValidity v service)
                            RendersResponses.REQUIRED_SERVICE_IF)
    with (_interfaceAdheres service RendersResponses.REQUIRED_SERVICE_IF).
  destruct (_interfaceAdheres service RendersResponses.REQUIRED_SERVICE_IF);
    [| reflexivity].
  change (IService.getIName (withValidity v service))
    with (IService.getIName service).
  change (IService.getEndpointNames (withValidity v service))
    with (IService.getEndpointNames service).
  destruct (IService.getIName service) as [serviceName |]; [| reflexivity].
  destruct endpoints as [names |];
    [| destruct (IService.getEndpointNames service) as [[names |] |]];
    try reflexivity; run;
    (destruct (_empty names); [reflexivity |]);
    now rewrite setupEndpoints_withValidity.
Qed.

(** The calls of [renderResponsesFor], for every service that passes the
    capability check. *)
Lemma renderResponsesFor_calls {T : Type} {host : RendersResponses.Host T}
    (self : T) (service : IService.t) (servicePathRoot : value)
    (endpoints : option (list string)) (w : world) :
  _interfaceAdheres service RendersResponses.REQUIRED_SERVICE_IF = true ->
  calls (snd (RendersResponses.renderResponsesFor self service servicePathRoot
                                                  endpoints w)) =
  (calls w ++
   match selection service endpoints with
   | Some names =>
       flat_map (expectedRegistrations self service servicePathRoot) names
   | None => []
   end)%list.
Proof.
  intros Hadh.
  destruct (selection service endpoints) as [names |] eqn:Hsel.
  2: { rewrite (renderResponsesFor_selection _ _ _ _ _ Hadh), Hsel.
       simpl. now rewrite app_nil_r. }
  destruct (IService.getMethodForEndpoint service) as [getMethod |] eqn:Hm.
  - destruct (renderResponsesFor_run self service servicePathRoot endpoints w
                names getMethod Hadh Hm Hsel) as [l E].
    now rewrite E.
  - rewrite (renderResponsesFor_selection _ _ _ _ _ Hadh), Hsel.
    assert (Hnone : flat_map (expectedRegistrations self service servicePathRoot)
                             names = []).
    { clear -Hm. induction names as [| a l IH]; simpl; [reflexivity |].
      rewrite IH. unfold expectedRegistrations. rewrite Hm. reflexivity. }
    rewrite Hnone, app_nil_r.
    destruct (_empty names) eqn:Eempty; [reflexivity |].
    assert (Hne : names <> []) by (intros ->; discriminate).
    match goal with
    | |- context [bind _ _ ?w0] =>
        destruct (setupEndpoints_throws_nonempty self service servicePathRoot
                    names Hne Hm 0 w0) as (e & l & E)
    end.
    unfold bind. rewrite E. reflexivity.
Qed.

(** X5: on an object that overrides neither [getHTTPServer] nor
    [getRenderMethodForEndpoint], the hooks of the mixin return [null],
    so [renderResponsesFor] registers nothing for any service that passes
    the capability check, and on a service with a [getMethodForEndpoint]
    it returns true only for an empty selection. *)
Theorem renderResponsesFor_unimplemented_hooks :
  forall (self : NamedBase.t) (service : IService.t) (servicePathRoot : value)
         (endpoints : option (list string)) (w : world),
    _interfaceAdheres service RendersResponses.REQUIRED_SERVICE_IF = true ->
    let result := RendersResponses.renderResponsesFor self service
                    servicePathRoot endpoints w in
    calls (snd result) = calls w /\
    (forall names getMethod,
       IService.getMethodForEndpoint service = Some getMethod ->
       selection service endpoints = Some names ->
       fst result = Ret (_empty names)).
Proof.
  intros self service servicePathRoot endpoints w Hadh result.
  assert (Hfail : forall name, setupSucceeds self service name = false).
  { intros name. unfold setupSucceeds. simpl.
    destruct (IService.getMethodForEndpoint service) as [getMethod |];
      [| reflexivity].
    destruct (IService.getEndpointDefFor service); [| reflexivity].
    now rewrite andb_false_r. }
  assert (Hnone : forall names,
             flat_map (expectedRegistrations self service servicePathRoot) names
             = []).
  { induction names as [| a l IH]; simpl; [reflexivity |].
    rewrite IH. unfold expectedRegistrations. rewrite Hfail.
    destruct (IService.getMethodForEndpoint service),
      (IService.getEndpointDefFor service); reflexivity. }
  split.
  - subst result. rewrite (renderResponsesFor_calls _ _ _ _ _ Hadh).
    destruct (selection service endpoints);
      [rewrite Hnone |]; apply app_nil_r.
  - intros names getMethod Hm Hsel.
    destruct (renderResponsesFor_run self service servicePathRoot endpoints w
                names getMethod Hadh Hm Hsel) as [l E].
    subst result. rewrite E. simpl. f_equal.
    replace (existsb (setupSucceeds self service) names) with false;
      [apply orb_false_r |].
    clear -Hfail. induction names as [| a l IH]; simpl; [reflexivity |].
    now rewrite Hfail.
Qed.

(** A bare named object cannot render the three endpoints of "users". *)
Lemma renderResponsesFor_unimplemented_hooks_witness :
  let result := RendersResponses.renderResponsesFor
                  (NamedBase.Make "plain" true)
                  (serviceInterface Scenario.users) (VStr "/api") None
                  empty_world in
  calls (snd result) = [] /\ fst result = Ret false.
Proof.
  destruct (renderResponsesFor_unimplemented_hooks
              (NamedBase.Make "plain" true) (serviceInterface Scenario.users)
              (VStr "/api") None empty_world eq_refl) as [Hcalls Hret].
  split; [exact Hcalls |].
  exact (Hret ["list"; "remove"; "add"] _ eq_refl eq_refl).
Defined.

(** ** JSONRenderer: construction *)

Lemma JSONRenderer_constructor_run :
  forall (rendererName : string) (server config : value) (w : world),
  exists (self : JSONRenderer.t) (l : list logentry),
    JSONRenderer.constructor rendererName server config w =
    (Ret self, World (calls w) (logs w ++ l)) /\
    JSONRenderer.getIName self = rendererName /\
    JSONRenderer.isValid self = _obj server /\
    JSONRenderer.getHTTPServer self = server /\
    JSONRenderer._responseHeaders self = _get config "responseHeaders" /\
    (_obj config = false -> JSONRenderer._responseHeaders self = VUndef).
Proof.
  intros rendererName server config w.
  assert (Hcfg : _obj config = false -> _get config "responseHeaders" = VUndef).
  { destruct config; try discriminate; reflexivity. }
  unfold JSONRenderer.constructor, JSONRenderer.set_valid. simpl.
  destruct (_obj server) eqn:Es; run.
  - exists {| JSONRenderer.base := NamedBase.Make rendererName true;
              JSONRenderer._server := server;
              JSONRenderer._responseHeaders := _get config "responseHeaders" |},
           [].
    rewrite app_nil_r, world_eta. repeat split; auto.
  - eexists {| JSONRenderer.base := NamedBase.Make rendererName false;
               JSONRenderer._server := server;
               JSONRenderer._responseHeaders := _get config "responseHeaders" |}.
    eexists. repeat split; auto.
Qed.

(** X6: constructing a [JSONRenderer] always returns an instance and
    makes no call; the instance is valid exactly when the server is an
    object, it keeps the server as given even then, and its response
    headers are the [responseHeaders] of the configuration, [undefined]
    when there is no configuration or no such entry. *)
Theorem JSONRenderer_constructor_validity :
  forall (rendererName : string) (server config : value) (w : world),
  exists (self : JSONRenderer.t) (l : list logentry),
    JSONRenderer.constructor rendererName server config w =
    (Ret self, World (calls w) (logs w ++ l)) /\
    JSONRenderer.getIName self = rendererName /\
    JSONRenderer.isValid self = _obj server /\
    JSONRenderer.getHTTPServer self = server /\
    JSONRenderer._responseHeaders self = _get config "responseHeaders" /\
    (_obj config = false -> JSONRenderer._responseHeaders self = VUndef).
Proof.
  intros rendererName server config w.
  apply JSONRenderer_constructor_run.
Qed.

(** X7: a [JSONRenderer] whose server is not an object registers nothing,
    whatever the service and the selection; for a service with a
    [getMethodForEndpoint] the result is true only for an empty
    selection. *)
Theorem JSONRenderer_without_server_registers_nothing :
  forall (self : JSONRenderer.t) (service : IService.t)
         (servicePathRoot : value) (endpoints : option (list string))
         (w : world),
    _obj (JSONRenderer.getHTTPServer self) = false ->
    _interfaceAdheres service RendersResponses.REQUIRED_SERVICE_IF = true ->
    let result := RendersResponses.renderResponsesFor self service
                    servicePathRoot endpoints w in
    calls (snd result) = calls w /\
    (forall names getMethod,
       IService.getMethodForEndpoint service = Some getMethod ->
       selection service endpoints = Some names ->
       fst result = Ret (_empty names)).
Proof.
  intros self service servicePathRoot endpoints w Hs Hadh result.
  assert (Hfail : forall name, setupSucceeds self service name = false).
  { intros name. unfold setupSucceeds. simpl.
    destruct (IService.getMethodForEndpoint service) as [getMethod |];
      [| reflexivity].
    destruct (IService.getEndpointDefFor service) as [getDef |];
      [| reflexivity].
    replace (_hasMethod (JSONRenderer.getHTTPServer self)
                        (resolvedHTTPMethod (getDef name))) with false;
      [apply andb_false_r |].
    unfold _hasMethod, _get, prop.
    destruct (JSONRenderer.getHTTPServer self); try discriminate;
      destruct (resolvedHTTPMethod (getDef name)); reflexivity. }
  assert (Hnone : forall names,
             flat_map (expectedRegistrations self service servicePathRoot) names
             = []).
  { induction names as [| a l IH]; simpl; [reflexivity |].
    rewrite IH. unfold expectedRegistrations. rewrite Hfail.
    destruct (IService.getMethodForEndpoint service),
      (IService.getEndpointDefFor service); reflexivity. }
  split.
  - subst result. rewrite (renderResponsesFor_calls _ _ _ _ _ Hadh).
    destruct (selection service endpoints);
      [rewrite Hnone |]; apply app_nil_r.
  - intros names getMethod Hm Hsel.
    destruct (renderResponsesFor_run self service servicePathRoot endpoints w
                names getMethod Hadh Hm Hsel) as [l E].
    subst result. rewrite E. simpl. f_equal.
    replace (existsb (setupSucceeds self service) names) with false;
      [apply orb_false_r |].
    clear -Hfail. induction names as [| a l IH]; simpl; [reflexivity |].
    now rewrite Hfail.
Qed.

(** A renderer built with [null] for a server. *)
Lemma JSONRenderer_without_server_registers_nothing_witness :
  let serverless :=
    {| JSONRenderer.base := NamedBase.Make "json" false;
       JSONRenderer._server := VNull;
       JSONRenderer._responseHeaders := VUndef |} in
  let result := RendersResponses.renderResponsesFor serverless
                  (serviceInterface Scenario.users) (VStr "/api") None
                  empty_world in
  calls (snd result) = [] /\ fst result = Ret false.
Proof.
  intros serverless result.
  destruct (JSONRenderer_without_server_registers_nothing serverless
              (serviceInterface Scenario.users) (VStr "/api") None empty_world
              eq_refl eq_refl) as [Hcalls Hret].
  split; [exact Hcalls |].
  exact (Hret ["list"; "remove"; "add"] _ eq_refl eq_refl).
Defined.

(** ** ServerAppChunk: registering its own endpoints *)

Lemma registerEndpoints_filter (self : ServerAppChunk.t) (names : list string) :
  forall (n : nat) (w : world),
  exists l,
    ServerAppChunk.registerEndpoints self names n w =
    (Ret (n + length (filter (chunkRegisters self) names))%nat,
     World (calls w ++ map (chunkRoute self) (filter (chunkRegisters self) names))
           (logs w ++ l)).
Proof.
  induction names as [| name names IH]; intros n w.
  - exists []. simpl. run. now rewrite !app_nil_r, world_eta, Nat.add_0_r.
  - cbn [ServerAppChunk.registerEndpoints filter].
    destruct (_obj (Service.getEndpointDefFor (ServerAppChunk.super self) name))
      eqn:Ed.
    2: { assert (chunkRegisters self name = false) as ->
           by (unfold chunkRegisters; now rewrite Ed).
         run.
         match goal with
         | |- context [ServerAppChunk.registerEndpoints self names n ?w0] =>
             destruct (IH n w0) as [l E]; rewrite E
         end.
         simpl. eexists. rewrite <- app_assoc. reflexivity. }
    destruct (_func (Service.getMethodForEndpoint (ServerAppChunk.super self) name))
      eqn:Ef.
    2: { assert (chunkRegisters self name = false) as ->
           by (unfold chunkRegisters; now rewrite Ed, Ef).
         run.
         match goal with
         | |- context [ServerAppChunk.registerEndpoints self names n ?w0] =>
             destruct (IH n w0) as [l E]; rewrite E
         end.
         simpl. eexists. rewrite <- app_assoc. reflexivity. }
    cbn [negb ServerAppChunk._llCreateValidatedHandlerFunc].
    unfold bind at 1. rewrite registerEndpointHandler_run.
    change (fst (RendersResponses.getHTTPServer self))
      with (ServerAppChunk._server self).
    destruct (_hasMethod (ServerAppChunk._server self)
                (resolvedHTTPMethod
                   (Service.getEndpointDefFor (ServerAppChunk.super self) name)))
      eqn:Eh.
    + assert (chunkRegisters self name = true) as ->
        by (unfold chunkRegisters; now rewrite Ed, Ef, Eh).
      rewrite joinPaths_def. run.
      match goal with
      | |- context [ServerAppChunk.registerEndpoints self names ?n0 ?w0] =>
          destruct (IH n0 w0) as [l E]; rewrite E
      end.
      simpl. eexists. rewrite <- !app_assoc. simpl.
      replace (n + 1 + length (filter (chunkRegisters self) names))%nat
        with (n + S (length (filter (chunkRegisters self) names)))%nat by lia.
      reflexivity.
    + assert (chunkRegisters self name = false) as ->
        by (unfold chunkRegisters; now rewrite Ed, Ef, Eh).
      run.
      match goal with
      | |- context [ServerAppChunk.registerEndpoints self names ?n0 ?w0] =>
          destruct (IH n0 w0) as [l E]; rewrite E
      end.
      simpl. eexists. rewrite <- !app_assoc. reflexivity.
Qed.

Lemma length_filter_lt_1 {A} (f : A -> bool) (l : list A) :
  (length (filter f l) <? 1)%nat = negb (existsb f l).
Proof.
  induction l as [| a l IH]; simpl; [reflexivity |].
  destruct (f a); simpl; [reflexivity | exact IH].
Qed.

Lemma registerEndpointHandlers_run (self : ServerAppChunk.t) (w : world) :
  let table := Service._endpointTable (ServerAppChunk.super self) in
  let names := getOwnPropertyNames table in
  exists l,
    ServerAppChunk._registerEndpointHandlers self w =
    (Ret (_obj table && (_empty names || existsb (chunkRegisters self) names)),
     World (calls w ++ map (chunkRoute self) (filter (chunkRegisters self) names))
           (logs w ++ l)).
Proof.
  intros table names.
  unfold ServerAppChunk._registerEndpointHandlers, Service.getEndpointNames.
  fold table.
  destruct (_obj table) eqn:Eobj; run.
  2: { assert (names = []) as ->.
       { subst names. destruct table; try discriminate; reflexivity. }
       simpl. eexists. now rewrite app_nil_r, <- app_assoc. }
  fold names. destruct (_empty names) eqn:Eempty; run.
  { destruct names; [| discriminate]. simpl. eexists.
    now rewrite app_nil_r. }
  match goal with
  | |- context [ServerAppChunk.registerEndpoints self names 0 ?w0] =>
      destruct (registerEndpoints_filter self names 0 w0) as [l E]; rewrite E
  end.
  simpl. rewrite length_filter_lt_1.
  destruct (existsb (chunkRegisters self) names); run; eexists;
    rewrite <- ?app_assoc; reflexivity.
Qed.

(** X8: [_registerEndpointHandlers] returns false when the chunk has no
    endpoint table, true when the table is empty, and otherwise true
    exactly when some endpoint has a definition that is an object, a
    method that is a function and a verb the server knows; it registers
    the validity wrappers of those endpoints, in the order of the table,
    and makes no other call. *)
Theorem registerEndpointHandlers_result :
  forall (self : ServerAppChunk.t) (w : world),
    let table := Service._endpointTable (ServerAppChunk.super self) in
    let names := getOwnPropertyNames table in
    let result := ServerAppChunk._registerEndpointHandlers self w in
    fst result =
    Ret (_obj table && (_empty names || existsb (chunkRegisters self) names)) /\
    calls (snd result) =
    (calls w ++ map (chunkRoute self) (filter (chunkRegisters self) names))%list.
Proof.
  intros self w table names result.
  destruct (registerEndpointHandlers_run self w) as [l E].
  subst result. rewrite E. now split.
Qed.

Lemma chunkRegisters_without_server (self : ServerAppChunk.t)
    (names : list string) :
  _obj (ServerAppChunk._server self) = false ->
  filter (chunkRegisters self) names = [].
Proof.
  intros Hs. induction names as [| a l IH]; simpl; [reflexivity |].
  rewrite IH. unfold chunkRegisters, _hasMethod, _get, prop.
  destruct (ServerAppChunk._server self); try discriminate;
    destruct (resolvedHTTPMethod _); now rewrite ?andb_false_r.
Qed.

Lemma ServerAppChunk_constructor_run :
  forall (chunkName : string) (config : value)
         (ov : ServerAppChunk.overrides) (w : world),
    let server := _get config "server" in
    let table := _get config "endpointTable" in
    let names := getOwnPropertyNames table in
    exists (self : ServerAppChunk.t) (l : list logentry),
      ServerAppChunk.constructor chunkName config ov w =
      (Ret self,
       World (calls w ++ map (chunkRoute self) (filter (chunkRegisters self) names))
             (logs w ++ l)) /\
      ServerAppChunk.getIName self = chunkName /\
      ServerAppChunk.getHTTPServer self = server /\
      ServerAppChunk._URLPathRoot self =
        js_or (_get config "URLPathRoot") (VStr "/") /\
      Service._endpointTable (ServerAppChunk.super self) = table /\
      ServerAppChunk.isValid self =
        _obj server && _obj table &&
        (_empty names || existsb (chunkRegisters self) names) /\
      (ServerAppChunk.mapEndpointsToRenderMethods ov = None ->
       ServerAppChunk._endpointRenderMethodMap self =
       if _obj server then VObj [] else VUndef).
Proof.
  intros chunkName config ov w server table names.
  unfold ServerAppChunk.constructor.
  destruct (Service_constructor_run chunkName config
              (ServerAppChunk.mapEndpointsToMethods ov) w) as (map & l0 & E).
  cbv zeta in E. unfold bind at 1. rewrite E. clear E.
  unfold ServerAppChunk.set_valid, Service.set_valid; simpl.
  fold server. fold table. fold names.
  destruct (_obj server) eqn:Es; run.
  2: { match goal with
       | |- exists _ _, (Ret ?t, _) = _ /\ _ => exists t
       end.
       eexists. split.
       - rewrite chunkRegisters_without_server by exact Es.
         simpl. rewrite app_nil_r, <- !app_assoc. reflexivity.
       - repeat split. }
  match goal with
  | |- context [ServerAppChunk._registerEndpointHandlers ?t ?w0] =>
      destruct (registerEndpointHandlers_run t w0) as [l1 E1]; rewrite E1
  end.
  simpl. fold table. fold names.
  match goal with
  | |- context [existsb (chunkRegisters ?t) names] =>
      set (this := t)
  end.
  assert (Hrm : forall (t : ServerAppChunk.t) w0,
            exists v l2,
              ServerAppChunk._mapEndpointsToRenderMethods
                (ServerAppChunk.mapEndpointsToRenderMethods ov) t w0 =
              (Ret v, World (calls w0) (logs w0 ++ l2)) /\
              (ServerAppChunk.mapEndpointsToRenderMethods ov = None ->
               v = VObj [])).
  { intros t w0. unfold ServerAppChunk._mapEndpointsToRenderMethods.
    destruct (ServerAppChunk.mapEndpointsToRenderMethods ov); run.
    - eexists. exists []. rewrite app_nil_r, world_eta.
      split; [reflexivity | discriminate].
    - eexists. eexists. split; reflexivity. }
  destruct (_obj table && (_empty names || existsb (chunkRegisters this) names))
    eqn:Ereg; run.
  all: match goal with
       | |- context [ServerAppChunk._mapEndpointsToRenderMethods _ ?t ?w0] =>
           destruct (Hrm t w0) as (v & l2 & E2 & Hv); rewrite E2
       end.
  all: simpl;
    match goal with
    | |- exists _ _, (Ret ?t, _) = _ /\ _ => exists t
    end;
    eexists; (split; [rewrite <- !app_assoc; reflexivity |]);
    repeat split; simpl; try exact Hv;
    unfold ServerAppChunk.isValid, Service.isValid, NamedBase.isValid; simpl;
    symmetry; exact Ereg.
Qed.

(** X9: constructing a [ServerAppChunk] always returns an instance.  The
    instance is valid exactly when the server of the configuration is an
    object, the endpoint table is an object, and the table is empty or
    one of its endpoints can be registered; the verdict of the [Service]
    constructor on the method map plays no part.  The calls made are the
    registrations of the validity wrappers of the endpoints that can be
    registered, in the order of the table. *)
Theorem ServerAppChunk_constructor_validity :
  forall (chunkName : string) (config : value)
         (ov : ServerAppChunk.overrides) (w : world),
    let server := _get config "server" in
    let table := _get config "endpointTable" in
    let names := getOwnPropertyNames table in
    exists (self : ServerAppChunk.t) (l : list logentry),
      ServerAppChunk.constructor chunkName config ov w =
      (Ret self,
       World (calls w ++ map (chunkRoute self) (filter (chunkRegisters self) names))
             (logs w ++ l)) /\
      ServerAppChunk.getIName self = chunkName /\
      ServerAppChunk.getHTTPServer self = server /\
      ServerAppChunk._URLPathRoot self =
        js_or (_get config "URLPathRoot") (VStr "/") /\
      Service._endpointTable (ServerAppChunk.super self) = table /\
      ServerAppChunk.isValid self =
        _obj server && _obj table &&
        (_empty names || existsb (chunkRegisters self) names).
Proof.
  intros chunkName config ov w server table names.
  destruct (ServerAppChunk_constructor_run chunkName config ov w)
    as (self & l & E & Hname & Hserver & Hroot & Htable & Hvalid & _).
  exists self, l. repeat split; assumption.
Qed.

(** X10: the validity wrapper of a chunk hands the request on unchanged
    in both states: a handler of the application is called exactly once,
    with (req, res, next), and what it returns is returned; the wrapper
    itself calls [next] exactly when the chunk is invalid, before the
    handler. *)
Theorem validated_handler_delegates :
  forall (env : environment) (self : ServerAppChunk.t) (endpointName id : string)
         (req res next : value) (w : world),
    let handlerFunc := VFun (Extern id) in
    ServerAppChunk.applyHandler env self
      (ValidatedHandlerFunc endpointName handlerFunc) req res next w =
    (Ret (returns env handlerFunc [req; res; next]),
     World (calls w
              ++ (if ServerAppChunk.isValid self then []
                  else [EvNext next (chunkInvalidError self endpointName)])
              ++ [EvCall handlerFunc [req; res; next]])
           (logs w)).
Proof.
  intros env self endpointName id req res next w handlerFunc.
  unfold ServerAppChunk.applyHandler, ServerAppChunk.validatedHandlerFunc.
  destruct (ServerAppChunk.isValid self); unfold handlerFunc, call; run;
    rewrite <- ?app_assoc; reflexivity.
Qed.

(** X11: a chunk built without overriding [_mapEndpointsToRenderMethods]
    has a render method for no endpoint, so its own [renderResponsesFor]
    registers nothing for any service that passes the capability check,
    and on a service with a [getMethodForEndpoint] it returns true only
    for an empty selection. *)
Theorem ServerAppChunk_renders_nothing_by_default :
  forall (chunkName : string) (config : value) (ov : ServerAppChunk.overrides)
         (w0 w1 : world) (self : ServerAppChunk.t) (service : IService.t)
         (servicePathRoot : value) (endpoints : option (list string))
         (w : world),
    ServerAppChunk.mapEndpointsToRenderMethods ov = None ->
    ServerAppChunk.constructor chunkName config ov w0 = (Ret self, w1) ->
    _interfaceAdheres service RendersResponses.REQUIRED_SERVICE_IF = true ->
    let result := RendersResponses.renderResponsesFor self service
                    servicePathRoot endpoints w in
    (forall endpointName,
       ServerAppChunk.getRenderMethodForEndpoint self endpointName = VUndef) /\
    calls (snd result) = calls w /\
    (forall names getMethod,
       IService.getMethodForEndpoint service = Some getMethod ->
       selection service endpoints = Some names ->
       fst result = Ret (_empty names)).
Proof.
  intros chunkName config ov w0 w1 self service servicePathRoot endpoints w
    Hov Hc Hadh result.
  destruct (ServerAppChunk_constructor_run chunkName config ov w0)
    as (self' & l & E & _ & _ & _ & _ & _ & Hmap).
  rewrite Hc in E. injection E as <- _. specialize (Hmap Hov).
  assert (Hrender : forall endpointName,
             ServerAppChunk.getRenderMethodForEndpoint self endpointName = VUndef).
  { intros endpointName. unfold ServerAppChunk.getRenderMethodForEndpoint.
    rewrite Hmap. now destruct (_obj (_get config "server")). }
  assert (Hfail : forall name, setupSucceeds self service name = false).
  { intros name. unfold setupSucceeds. simpl. rewrite Hrender.
    destruct (IService.getMethodForEndpoint service) as [getMethod |];
      [| reflexivity].
    destruct (IService.getEndpointDefFor service); [| reflexivity].
    now rewrite andb_false_r. }
  assert (Hnone : forall names,
             flat_map (expectedRegistrations self service servicePathRoot) names
             = []).
  { induction names as [| a l' IH]; simpl; [reflexivity |].
    rewrite IH. unfold expectedRegistrations. rewrite Hfail.
    destruct (IService.getMethodForEndpoint service),
      (IService.getEndpointDefFor service); reflexivity. }
  split; [exact Hrender |]. split.
  - subst result. rewrite (renderResponsesFor_calls _ _ _ _ _ Hadh).
    destruct (selection service endpoints);
      [rewrite Hnone |]; apply app_nil_r.
  - intros names getMethod Hm Hsel.
    destruct (renderResponsesFor_run self service servicePathRoot endpoints w
                names getMethod Hadh Hm Hsel) as [l' E].
    subst result. rewrite E. simpl. f_equal.
    replace (existsb (setupSucceeds self service) names) with false;
      [apply orb_false_r |].
    clear -Hfail. induction names as [| a l' IH]; simpl; [reflexivity |].
    now rewrite Hfail.
Qed.

(** The chunk of the two views cannot render the endpoints of "users". *)
Lemma ServerAppChunk_renders_nothing_by_default_witness :
  exists self w1,
    ServerAppChunk.constructor "app" Scenario.views Scenario.homeOnly
                               empty_world = (Ret self, w1) /\
    let result := RendersResponses.renderResponsesFor self
                    (serviceInterface Scenario.users) (VStr "/api") None
                    empty_world in
    calls (snd result) = [] /\ fst result = Ret false.
Proof.
  eexists. eexists. split; [lazy; reflexivity |].
  match goal with
  | |- let result := RendersResponses.renderResponsesFor ?self _ _ _ _ in _ =>
      destruct (ServerAppChunk_renders_nothing_by_default "app" Scenario.views
                  Scenario.homeOnly empty_world _ self
                  (serviceInterface Scenario.users) (VStr "/api") None
                  empty_world eq_refl eq_refl eq_refl) as (_ & Hcalls & Hret)
  end.
  split; [exact Hcalls |].
  exact (Hret ["list"; "remove"; "add"] _ eq_refl eq_refl).
Defined.

Lemma checkRenderNames_checkNames (self : ServerAppChunk.t)
    (names : list string) :
  forall valid w,
    ServerAppChunk.checkRenderNames self names valid w =
    Service.checkNames (ServerAppChunk.super self) names valid w.
Proof.
  induction names as [| name names IH]; intros valid w; simpl; [reflexivity |].
  destruct (_func _); simpl; [apply IH |].
  unfold bind, log. apply IH.
Qed.

(** X12: [_endpointRenderMethodMapValid] never reads the render method
    map: it tests the endpoint method map, and so returns what the
    [Service] check [_endpointMethodMapValid] returns, making no call. *)
Theorem endpointRenderMethodMapValid_checks_method_map :
  forall (self : ServerAppChunk.t) (renderMap : value) (w : world),
    let other :=
      {| ServerAppChunk.super := ServerAppChunk.super self;
         ServerAppChunk._URLPathRoot := ServerAppChunk._URLPathRoot self;
         ServerAppChunk._server := ServerAppChunk._server self;
         ServerAppChunk._endpointRenderMethodMap := renderMap |} in
    ServerAppChunk._endpointRenderMethodMapValid other w =
    ServerAppChunk._endpointRenderMethodMapValid self w /\
    fst (ServerAppChunk._endpointRenderMethodMapValid self w) =
    fst (Service._endpointMethodMapValid (ServerAppChunk.super self) w) /\
    calls (snd (ServerAppChunk._endpointRenderMethodMapValid self w)) = calls w.
Proof.
  intros self renderMap w other.
  assert (E : forall t,
             ServerAppChunk._endpointRenderMethodMapValid t w =
             Service._endpointMethodMapValid (ServerAppChunk.super t) w).
  { intros t.
    unfold ServerAppChunk._endpointRenderMethodMapValid,
      Service._endpointMethodMapValid, bind.
    destruct (Service.getEndpointNames (ServerAppChunk.super t) w)
      as [[[names |] | e] w']; try reflexivity.
    apply checkRenderNames_checkNames. }
  rewrite !E. split; [reflexivity |]. split; [reflexivity |].
  destruct (endpointMethodMapValid_spec (ServerAppChunk.super self) w)
    as [l El].
  now rewrite El.
Qed.

(** ** JSONRenderer behind the composite handler *)

(** X13: when the completion callback of a composite handler fires on a
    valid [JSONRenderer], exactly one call is made: [next(err)] when [err]
    is defined, else [json] on the response channel with the data, wrapped
    when it is not an object.  [_renderJSON] is called as a plain function
    there, without the renderer as receiver, so [set] is not called even
    when the renderer has response headers. *)
Theorem json_callback_single_call :
  forall (env : environment) (self : JSONRenderer.t) (endpointName : string)
         (req res next data err : value) (w : world),
    JSONRenderer.isValid self = true ->
    let cb := ReadyCallback endpointName
                (JSONRenderer.getRenderMethodForEndpoint self endpointName)
                req res next in
    RendersResponses.readyCallbackFunc env self cb data err w =
    (Ret VUndef,
     World (calls w ++
            [if _def err then EvNext next err
             else EvJson res (if _obj data then data
                              else VObj [("data", data)])])
           (logs w)).
Proof.
  intros env self endpointName req res next data err w Hv cb.
  unfold RendersResponses.readyCallbackFunc. simpl. rewrite Hv. simpl.
  unfold renderJSON_body, arg. simpl.
  destruct (_def err), (_obj data); run; reflexivity.
Qed.

(** A renderer with headers answers [7] with [json({data: 7})] alone. *)
Lemma json_callback_single_call_witness :
  let withHeaders :=
    {| JSONRenderer.base := NamedBase.Make "json" true;
       JSONRenderer._server := Scenario.server0;
       JSONRenderer._responseHeaders :=
         VObj [("Cache-Control", VStr "no-cache")] |} in
  RendersResponses.readyCallbackFunc Scenario.env0 withHeaders
    (ReadyCallback "list" (VFun RenderJSON) Scenario.req0 Scenario.res0
                   Scenario.next0)
    (VNum 7) VUndef empty_world =
  (Ret VUndef, World [EvJson Scenario.res0 (VObj [("data", VNum 7)])] []).
Proof.
  intros withHeaders.
  exact (json_callback_single_call Scenario.env0 withHeaders "list"
           Scenario.req0 Scenario.res0 Scenario.next0 (VNum 7) VUndef
           empty_world eq_refl).
Defined.

(** ** Service: the base class and its lookups *)

(** X14: a [Service] whose [_mapEndpointsToMethods] is not overridden has
    [null] for a method map, and is valid exactly when its endpoint table
    is an object without endpoints. *)
Theorem Service_without_mapping :
  forall (serviceName : string) (config : value) (w : world),
  exists (self : Service.t) (l : list logentry),
    Service.constructor serviceName config None w =
    (Ret self, World (calls w) (logs w ++ l)) /\
    Service._endpointMethodMap self = VNull /\
    (forall endpointName, Service.getMethodForEndpoint self endpointName = VUndef) /\
    (Service.isValid self = true <-> _get config "endpointTable" = VObj []).
Proof.
  intros serviceName config w.
  unfold Service.constructor, Service._mapEndpointsToMethods,
    Service.set_endpointMethodMap, Service.set_valid.
  run.
  match goal with
  | |- context [Service._endpointMethodMapValid ?s ?w0] =>
      destruct (endpointMethodMapValid_spec s w0) as [l E]; rewrite E
  end.
  simpl.
  assert (Hall : forall names,
             forallb (fun n => _func (Service.getMethodForEndpoint
                        {| Service.base := NamedBase.Make serviceName true;
                           Service._endpointTable := _get config "endpointTable";
                           Service._endpointMethodMap := VNull |} n)) names =
             _empty names).
  { intros [| a names]; reflexivity. }
  rewrite Hall.
  destruct (_get config "endpointTable") as [| | | | | | props |] eqn:Et;
    simpl; try (eexists; eexists; repeat split; try reflexivity;
                rewrite <- ?app_assoc; try reflexivity; discriminate).
  destruct props as [| p props]; simpl;
    eexists; eexists; repeat split; try reflexivity;
    rewrite <- ?app_assoc; try reflexivity; discriminate.
Qed.


Lemma lookup_absent (k : string) (ps : list (string * value)) :
  ~ In k (map fst ps) -> lookup k ps = VUndef.
Proof.
  induction ps as [| [k' v] ps IH]; simpl; [reflexivity |].
  intros H. destruct (String.eqb_spec k k') as [-> | Hne].
  - exfalso. apply H. now left.
  - apply IH. intros Hin. apply H. now right.
Qed.

(** X16: an endpoint name that the endpoint table of a [Service] does not
    list has no definition, so when [renderResponsesFor] is asked for it,
    it is skipped: its setup fails and registers nothing, even when the
    method map has a method under that name. *)
Theorem unlisted_endpoint_is_skipped :
  forall (T : Type) (host : RendersResponses.Host T) (self : T)
         (s : Service.t) (servicePathRoot : value) (endpointName : string),
    ~ In endpointName (getOwnPropertyNames (Service._endpointTable s)) ->
    Service.getEndpointDefFor s endpointName = VUndef /\
    setupSucceeds self (serviceInterface s) endpointName = false /\
    expectedRegistrations self (serviceInterface s) servicePathRoot
                          endpointName = [].
Proof.
  intros T host self s servicePathRoot endpointName Hin.
  assert (Hdef : Service.getEndpointDefFor s endpointName = VUndef).
  { unfold Service.getEndpointDefFor, _get, prop.
    destruct (Service._endpointTable s); try reflexivity.
    now apply lookup_absent. }
  assert (Hfail : setupSucceeds self (serviceInterface s) endpointName = false).
  { unfold setupSucceeds. simpl. rewrite Hdef. simpl.
    now rewrite andb_false_r. }
  split; [exact Hdef |]. split; [exact Hfail |].
  unfold expectedRegistrations. simpl. now rewrite Hfail.
Qed.

(** "purge" is not an endpoint of "users". *)
Lemma unlisted_endpoint_is_skipped_witness :
  Service.getEndpointDefFor Scenario.users "purge" = VUndef /\
  setupSucceeds Scenario.renderer (serviceInterface Scenario.users) "purge"
  = false /\
  expectedRegistrations Scenario.renderer (serviceInterface Scenario.users)
                        (VStr "/api") "purge" = [].
Proof.
  apply (unlisted_endpoint_is_skipped _ _ Scenario.renderer Scenario.users
           (VStr "/api") "purge").
  simpl. intros [H | [H | [H | []]]]; discriminate H.
Defined.

Lemma existsb_ext_in {A} (f g : A -> bool) (l : list A) :
  (forall a, In a l -> f a = g a) -> existsb f l = existsb g l.
Proof.
  induction l as [| a l IH]; simpl; intros H; [reflexivity |].
  rewrite (H a) by now left. rewrite IH; [reflexivity |].
  intros b Hb. apply H. now right.
Qed.

(** X17: a [Service] that its constructor left valid, rendered by a
    [JSONRenderer]: every endpoint of the table whose definition is an
    object and whose verb the renderer's server knows is registered, once,
    and no other; the result is true when the table is empty or such an
    endpoint exists. *)
Theorem valid_service_rendered_as_json :
  forall (serviceName : string) (config : value)
         (override : option (Service.t -> value)) (w0 w1 : world)
         (s : Service.t) (r : JSONRenderer.t) (servicePathRoot : value)
         (w : world),
    Service.constructor serviceName config override w0 = (Ret s, w1) ->
    Service.isValid s = true ->
    let names := getOwnPropertyNames (Service._endpointTable s) in
    let known name :=
      _obj (Service.getEndpointDefFor s name) &&
      _hasMethod (JSONRenderer.getHTTPServer r)
                 (resolvedHTTPMethod (Service.getEndpointDefFor s name)) in
    let result := RendersResponses.renderResponsesFor r (serviceInterface s)
                    servicePathRoot None w in
    fst result = Ret (_empty names || existsb known names) /\
    calls (snd result) =
    (calls w ++ flat_map (expectedRegistrations r (serviceInterface s)
                                                servicePathRoot) names)%list /\
    (forall name, In name names ->
       length (expectedRegistrations r (serviceInterface s) servicePathRoot name)
       = if known name then 1%nat else 0%nat).
Proof.
  intros serviceName config override w0 w1 s r servicePathRoot w Hc Hv
    names known result.
  destruct (Service_constructor_run serviceName config override w0)
    as (map & l & E).
  cbv zeta in E. rewrite Hc in E. injection E as Hs _.
  assert (Hobj : _obj (Service._endpointTable s) = true /\
                 forallb (fun n => _func (Service.getMethodForEndpoint s n)) names
                 = true).
  { apply andb_true_iff. subst names. rewrite <- Hv, Hs. reflexivity. }
  destruct Hobj as [Hobj Hall].
  assert (Hsucc : forall name, In name names ->
             setupSucceeds r (serviceInterface s) name = known name).
  { intros name Hin. unfold setupSucceeds, known. simpl.
    rewrite forallb_forall in Hall. now rewrite (Hall name Hin). }
  assert (Hsel : selection (serviceInterface s) None = Some names).
  { unfold selection. simpl. now rewrite Hobj. }
  destruct (renderResponsesFor_run r (serviceInterface s) servicePathRoot None
              w names _ eq_refl eq_refl Hsel) as [l' E'].
  subst result. rewrite E'. simpl.
  split; [| split; [reflexivity |]].
  - f_equal. f_equal. now apply existsb_ext_in.
  - intros name Hin. unfold expectedRegistrations. simpl.
    rewrite (Hsucc name Hin). now destruct (known name).
Qed.

(** The three endpoints of "users", all mapped: the server has no
    [delete], so "list" and "add" are registered. *)
Lemma valid_service_rendered_as_json_witness :
  exists s w1,
    Service.constructor "users" Scenario.usersConfig
      (Some (fun _ => Scenario.methods3)) empty_world = (Ret s, w1) /\
    let result := RendersResponses.renderResponsesFor Scenario.renderer
                    (serviceInterface s) (VStr "/api/") None empty_world in
    fst result = Ret true /\
    calls (snd result) =
    [EvRoute Scenario.server0 (VStr "get") (VStr "/api/users")
       (EndpointHandlerFunc "json" "list" (VFun (Extern "listUsers"))
                            (VFun RenderJSON));
     EvRoute Scenario.server0 (VStr "post") (VStr "/api/users")
       (EndpointHandlerFunc "json" "add" (VFun (Extern "addUser"))
                            (VFun RenderJSON))].
Proof.
  eexists. eexists. split; [lazy; reflexivity |].
  match goal with
  | |- let result := RendersResponses.renderResponsesFor _
                       (serviceInterface ?s) _ _ _ in _ =>
      destruct (valid_service_rendered_as_json "users" Scenario.usersConfig
                  (Some (fun _ => Scenario.methods3)) empty_world _ s
                  Scenario.renderer (VStr "/api/") empty_world
                  eq_refl eq_refl) as (Hret & Hcalls & _)
  end.
  split; [exact Hret | exact Hcalls].
Defined.

(** ** What the validity checks can meet after construction *)

Lemma hasMethod_obj (server verb : value) :
  _hasMethod server verb = true -> _obj server = true.
Proof.
  unfold _hasMethod, _get, prop.
  destruct verb; try discriminate. now destruct server.
Qed.

Lemma chunkRegisters_exists (self : ServerAppChunk.t) (names : list string) :
  filter (chunkRegisters self) names <> [] ->
  existsb (chunkRegisters self) names = true /\
  _obj (ServerAppChunk._server self) = true /\ _empty names = false.
Proof.
  induction names as [| a l IH]; simpl; [congruence |].
  destruct (chunkRegisters self a) eqn:Ea; simpl.
  - intros _. repeat split.
    unfold chunkRegisters in Ea.
    apply andb_true_iff in Ea as [_ Hh]. now apply hasMethod_obj in Hh.
  - intros H. destruct (IH H) as (He & Hs & _). now repeat split.
Qed.

(** X18: a chunk whose constructor registered at least one handler is
    valid when the constructor returns; every handler it registered is a
    validity wrapper around a function of the method map, and a request
    to it, in the state the constructor left, reaches a handler of the
    application directly, without a call of [next]. *)
Theorem constructed_chunk_serves_its_handlers :
  forall (chunkName : string) (config : value) (ov : ServerAppChunk.overrides)
         (w : world),
  exists (self : ServerAppChunk.t) (w' : world) (routes : list event),
    ServerAppChunk.constructor chunkName config ov w = (Ret self, w') /\
    calls w' = (calls w ++ routes)%list /\
    (routes <> [] -> ServerAppChunk.isValid self = true) /\
    (forall e, In e routes ->
       exists verb path endpointName handlerFunc,
         e = EvRoute (ServerAppChunk.getHTTPServer self) verb path
               (ValidatedHandlerFunc endpointName handlerFunc) /\
         handlerFunc = Service.getMethodForEndpoint (ServerAppChunk.super self)
                                                    endpointName /\
         _func handlerFunc = true /\
         forall env id req res next w2,
           handlerFunc = VFun (Extern id) ->
           ServerAppChunk.applyHandler env self
             (ValidatedHandlerFunc endpointName handlerFunc) req res next w2 =
           (Ret (returns env handlerFunc [req; res; next]),
            World (calls w2 ++ [EvCall handlerFunc [req; res; next]])
                  (logs w2))).
Proof.
  intros chunkName config ov w.
  destruct (ServerAppChunk_constructor_run chunkName config ov w)
    as (self & l & E & _ & Hserver & _ & Htable & Hvalid & _).
  cbv zeta in E, Hvalid.
  set (names := getOwnPropertyNames (_get config "endpointTable")) in *.
  exists self. eexists. exists (map (chunkRoute self)
                                    (filter (chunkRegisters self) names)).
  split; [exact E |]. split; [reflexivity |].
  assert (Hne : filter (chunkRegisters self) names <> [] ->
                ServerAppChunk.isValid self = true).
  { intros H. destruct (chunkRegisters_exists self names H) as (He & Hs & Hn).
    rewrite Hvalid, He. unfold ServerAppChunk.getHTTPServer in Hserver.
    rewrite <- Hserver, Hs, orb_true_r. simpl.
    destruct (_obj (_get config "endpointTable")) eqn:Et; [reflexivity |].
    exfalso. apply H. subst names.
    destruct (_get config "endpointTable"); try discriminate; reflexivity. }
  split.
  - intros H. apply Hne. intros H0. apply H. now rewrite H0.
  - intros e He. apply in_map_iff in He as (name & <- & Hin).
    pose proof Hin as Hin'. apply filter_In in Hin' as [_ Hreg].
    unfold chunkRegisters in Hreg.
    apply andb_true_iff in Hreg as [Hreg _].
    apply andb_true_iff in Hreg as [_ Hf].
    eexists. eexists. exists name. eexists.
    split; [reflexivity |]. split; [reflexivity |]. split; [exact Hf |].
    intros env id req res next w2 Hid.
    unfold ServerAppChunk.applyHandler, ServerAppChunk.validatedHandlerFunc.
    rewrite Hne by (intros H0; rewrite H0 in Hin; destruct Hin).
    rewrite Hid. reflexivity.
Qed.

(** X19: a [JSONRenderer] as its constructor leaves it is valid whenever
    its [renderResponsesFor] registers a handler; so a completion callback
    of such a handler, in that state, does not meet an invalid
    renderer. *)
Theorem constructed_renderer_valid_when_registering :
  forall (rendererName : string) (server config : value) (w0 w1 : world)
         (self : JSONRenderer.t) (service : IService.t)
         (servicePathRoot : value) (endpoints : option (list string))
         (w : world),
    JSONRenderer.constructor rendererName server config w0 = (Ret self, w1) ->
    _interfaceAdheres service RendersResponses.REQUIRED_SERVICE_IF = true ->
    calls (snd (RendersResponses.renderResponsesFor self service
                  servicePathRoot endpoints w)) <> calls w ->
    JSONRenderer.isValid self = true.
Proof.
  intros rendererName server config w0 w1 self service servicePathRoot
    endpoints w Hc Hadh Hcalls.
  destruct (JSONRenderer_constructor_run rendererName server config w0)
    as (self' & l & E & _ & Hvalid & Hserver & _).
  rewrite Hc in E. injection E as <- _.
  rewrite Hvalid, <- Hserver.
  rewrite (renderResponsesFor_calls _ _ _ _ _ Hadh) in Hcalls.
  destruct (_obj (JSONRenderer.getHTTPServer self)) eqn:Es; [reflexivity |].
  exfalso. apply Hcalls. clear Hcalls.
  destruct (selection service endpoints) as [names |]; [| apply app_nil_r].
  replace (flat_map (expectedRegistrations self service servicePathRoot) names)
    with (@nil event); [apply app_nil_r |].
  induction names as [| a names IH]; simpl; [reflexivity |].
  rewrite <- IH. unfold expectedRegistrations, setupSucceeds.
  destruct (IService.getMethodForEndpoint service) as [getMethod |];
    [| reflexivity].
  destruct (IService.getEndpointDefFor service) as [getDef |]; [| reflexivity].
  destruct (_hasMethod _ _) eqn:Eh.
  - apply hasMethod_obj in Eh.
    change (_obj (JSONRenderer.getHTTPServer self) = true) in Eh.
    congruence.
  - now rewrite andb_false_r.
Qed.

(** The renderer built on the sample server registers "list" and "add"
    of "users", and is valid. *)
Lemma constructed_renderer_valid_when_registering_witness :
  exists self w1,
    JSONRenderer.constructor "json" Scenario.server0 VUndef empty_world =
    (Ret self, w1) /\
    JSONRenderer.isValid self = true.
Proof.
  eexists. eexists. split; [lazy; reflexivity |].
  apply (constructed_renderer_valid_when_registering "json" Scenario.server0
           VUndef empty_world _ _ (serviceInterface Scenario.users)
           (VStr "/api") None empty_world eq_refl eq_refl).
  intros H. lazy in H. discriminate H.
Defined.

(** ** RendersResponses: a service without [getMethodForEndpoint] *)

(** X20: the capability check does not ask for [getMethodForEndpoint],
    which the setup of every endpoint calls: on a service that passes the
    check but lacks it, [renderResponsesFor] with a non-empty selection
    does not return; the call of the missing method throws at the first
    endpoint, and nothing has been registered. *)
Theorem renderResponsesFor_throws_without_getMethodForEndpoint :
  forall (T : Type) (host : RendersResponses.Host T) (self : T)
         (service : IService.t) (servicePathRoot : value)
         (endpoints : option (list string)) (w : world)
         (names : list string),
    _interfaceAdheres service RendersResponses.REQUIRED_SERVICE_IF = true ->
    IService.getMethodForEndpoint service = None ->
    selection service endpoints = Some names ->
    names <> [] ->
    let result := RendersResponses.renderResponsesFor self service
                    servicePathRoot endpoints w in
    fst result =
      Throw "TypeError: service.getMethodForEndpoint is not a function" /\
    calls (snd result) = calls w.
Proof.
  intros T host self service servicePathRoot endpoints w names Hadh Hm Hsel
    Hne result.
  subst result. rewrite (renderResponsesFor_selection _ _ _ _ _ Hadh), Hsel.
  destruct names as [| name names]; [congruence |].
  cbn [_empty RendersResponses.setupEndpoints].
  unfold RendersResponses._llSetupRenderingFor,
    RendersResponses._llCreateEndpointHandlerFunc.
  rewrite Hm. now split.
Qed.

(** An object with the three required methods only. *)
Lemma renderResponsesFor_throws_without_getMethodForEndpoint_witness :
  let result := RendersResponses.renderResponsesFor Scenario.renderer
                  Scenario.bare (VStr "/api") None empty_world in
  fst result =
    Throw "TypeError: service.getMethodForEndpoint is not a function" /\
  calls (snd result) = [].
Proof.
  apply (renderResponsesFor_throws_without_getMethodForEndpoint _ _
           Scenario.renderer Scenario.bare (VStr "/api") None empty_world
           ["a"] eq_refl eq_refl eq_refl).
  discriminate.
Defined.
